(** * redash/__init__.py: application bootstrap

    A shallow embedding of [create_redis_connection], [create_app] and of the
    [JwtFlask.process_response] hook defined inside [create_app].

    Python values are modelled as follows.
    - [str] is [string]; a dict with string keys is a [gmap string _].
    - [int]/[long] is [Z] (unbounded, as in Python 2).
    - the [float] returned by [time.time()] is a rational [Q]: every finite
      float is one, and Python compares an [int] with a [float] exactly.
    - a call that may raise returns a [res]; the hook, which also talks to
      the refresh provider, runs in [Hook], which adds the list of HTTP
      requests issued.
    - library calls whose code is not part of this module ([urlparse],
      [jose.jwt], [requests], [urllib], the [Flask] base class) are fields of
      the records [UrlLib] and [World].
    - calls to [logging] have no bearing on any result and are left out. *)

From stdpp Require Import gmap strings list.
From Stdlib Require Import ZArith QArith Ascii.

Local Open Scope string_scope.
Local Open Scope Z_scope.

(** ** Exceptions and results *)

(** The exception classes that matter to this module.  [OtherError] stands
    for any class unrelated to the others (e.g. a [requests] connection
    error). *)
Inductive exn : Type :=
  | ExpiredSignatureError
  | JWTClaimsError
  | JWTError
  | KeyError
  | TypeError
  | IndexError
  | AttributeError
  | OtherError (name : string).

Inductive res (A : Type) : Type :=
  | Ret (a : A)
  | Raise (e : exn).
Arguments Ret {A} a.
Arguments Raise {A} e.

#[global] Instance res_ret : MRet res := fun A a => Ret a.
#[global] Instance res_bind : MBind res := fun A B k m =>
  match m with
  | Ret a => k a
  | Raise e => Raise e
  end.
#[global] Instance res_fmap : FMap res := fun A B f m =>
  match m with
  | Ret a => Ret (f a)
  | Raise e => Raise e
  end.

(** [ValueError], which no handler of this module names. *)
Definition ValueError : exn := OtherError "ValueError".

(** [d[k]] on a dict: [KeyError] when the key is absent. *)
Definition getitem {V : Type} (d : gmap string V) (k : string) : res V :=
  match d !! k with
  | Some v => Ret v
  | None => Raise KeyError
  end.

(** [l[0]] on a list: [IndexError] when the list is empty. *)
Definition first_item {A : Type} (l : list A) : res A :=
  match l with
  | x :: _ => Ret x
  | [] => Raise IndexError
  end.

(** [s[i]] on a [str]: the one-character string at index [i], [IndexError]
    when [i] is out of range. *)
Definition str_index (s : string) (i : nat) : res string :=
  match String.get i s with
  | Some c => Ret (String c EmptyString)
  | None => Raise IndexError
  end.

(** ** Settings

    [redash.settings] is a module of constants; the ones read here. *)
Record Settings : Type := {
  REDIS_URL : string;
  REMOTE_JWT_LOGIN_ENABLED : bool;
  REMOTE_JWT_REFRESH_PROVIDER : string;
  REMOTE_JWT_EXPIRED_ENDPOINT : string;
  STATIC_ASSETS_PATH : string;
  ROOT_UI_URL : string;
  PROXIES_COUNT : Z;
  ENFORCE_HTTPS : bool;
  SENTRY_DSN : string;
  SQLALCHEMY_DATABASE_URI : string
}.

(** ** create_redis_connection *)

Module Redis.

(** The attributes of [urlparse.ParseResult] that the function reads.
    [scheme], [path] and [query] are fields of the tuple; [hostname],
    [port] and [password] are properties computed from the network
    location when they are read.  Reading [port] converts the text after
    the colon with [int], so it raises [ValueError] when that text is not
    a number. *)
Record ParseResult : Type := {
  scheme : string;
  path : string;
  query : string;
  hostname : option string;
  port : res (option Z);
  password : option string
}.

Record UrlLib : Type := {
  urlparse : string -> ParseResult;
  parse_qs : string -> gmap string (list string);
  unquote : string -> string
}.

(** The [db] argument is either the integer literal [0] or a [str] cut out of
    the URL. *)
Inductive db_arg : Type :=
  | DbInt (n : Z)
  | DbStr (s : string).

(** The keyword arguments [redis.StrictRedis] is constructed with. *)
Inductive StrictRedis : Type :=
  | UnixSocket (unix_socket_path : string) (db : db_arg)
  | Tcp (host : option string) (tcp_port : option Z) (db : db_arg)
        (pw : option string).

(** [redis_url.password and urllib.unquote(redis_url.password)]: [None] and
    the empty string are falsy and are passed on unchanged. *)
Definition redis_password (lib : UrlLib) (p : option string) : option string :=
  match p with
  | None => None
  | Some s => if decide (s = "") then Some s else Some (unquote lib s)
  end.

Definition create_redis_connection (lib : UrlLib) (st : Settings)
  : res StrictRedis :=
  let redis_url := urlparse lib (REDIS_URL st) in
  if decide (scheme redis_url = "redis+socket") then
    let qs := parse_qs lib (query redis_url) in
    db ← match qs !! "virtual_host" with
         | Some vs => DbStr <$> first_item vs
         | None => Ret (DbInt 0)
         end;
    Ret (UnixSocket (path redis_url) db)
  else
    redis_db ← (if decide (path redis_url = "") then Ret (DbInt 0)
                else DbStr <$> str_index (path redis_url) 1);
    let redis_password := redis_password lib (password redis_url) in
    let host := hostname redis_url in
    redis_port ← port redis_url;
    Ret (Tcp host redis_port redis_db redis_password).

End Redis.

(** ** The JWT cookie hook: data *)

(** A value of the decoded claims dict (JSON): the model covers integers
    and strings. *)
Inductive jval : Type :=
  | JInt (n : Z)
  | JStr (s : string).

(** What [requests.post] is called with: [url], [headers=] and [data=]. *)
Record http_request : Type := {
  url : string;
  headers : list (string * string);
  data : list (string * option jval)
}.

(** The object [requests.post] returns, as far as the hook reads it.
    [reply_data] is the attribute [resp.data]: [None] when the object has no
    such attribute, so that reading it raises [AttributeError]. *)
Record reply : Type := {
  status_code : Z;
  reply_data : option (gmap string string)
}.

Record cookie : Type := {
  cookie_key : string;
  cookie_value : string;
  secure : bool;
  httponly : bool
}.

(** A response object: status, headers and the cookies set on it (the
    payload plays no role in the hook and is left out). *)
Record Response : Type := {
  status : Z;
  resp_headers : list (string * string);
  resp_cookies : list cookie
}.

(** The parts of [flask.request] the hook reads.  [referrer] is [None] when
    the request carries no [Referer] header. *)
Record Request : Type := {
  cookies : gmap string string;
  referrer : option string
}.

(** Everything outside this module that the hook calls. *)
Record World : Type := {
  get_jwt_public_key : res string;
  jwt_get_unverified_claims : string -> res (gmap string jval);
  jwt_decode : string -> string -> res (gmap string jval);
  time_time : Q;
  requests_post : http_request -> res reply;
  urllib_quote_plus : string -> string;
  Flask_process_response : Response -> res Response
}.

(** ** The hook monad: a result and the HTTP requests issued on the way *)

Definition Hook (A : Type) : Type := (res A * list http_request)%type.

#[global] Instance Hook_ret : MRet Hook := fun A a => (Ret a, []).
#[global] Instance Hook_bind : MBind Hook := fun A B k m =>
  match m with
  | (Ret a, sent) => let '(r, sent') := k a in (r, (sent ++ sent')%list)
  | (Raise e, sent) => (Raise e, sent)
  end.

Definition lift {A : Type} (r : res A) : Hook A := (r, []).

Definition post (w : World) (rq : http_request) : Hook reply :=
  (requests_post w rq, [rq]).

(** ** Python operations used by the hook *)

(** [iat + 1200]: a [str] on the left raises [TypeError]. *)
Definition plus_1200 (iat : jval) : res Z :=
  match iat with
  | JInt n => Ret (n + 1200)
  | JStr _ => Raise TypeError
  end.

(** [n < x] for an [int] [n] and a [float] [x]. *)
Definition int_lt_float (n : Z) (x : Q) : bool :=
  negb (Qle_bool x (inject_Z n)).

(** [x <= v] for a [float] [x]: in Python 2 a number orders before any
    string. *)
Definition float_le (x : Q) (v : jval) : bool :=
  match v with
  | JInt n => Qle_bool x (inject_Z n)
  | JStr _ => true
  end.

(** [x > v] for a [float] [x]. *)
Definition float_gt (x : Q) (v : jval) : bool :=
  match v with
  | JInt n => negb (Qle_bool x (inject_Z n))
  | JStr _ => false
  end.

(** [resp.data] *)
Definition getattr_data (r : reply) : res (gmap string string) :=
  match reply_data r with
  | Some d => Ret d
  | None => Raise AttributeError
  end.

(** [response.set_cookie(key, value, secure=.., httponly=..)] *)
Definition set_cookie (response : Response) (key value : string)
    (sec http : bool) : Response :=
  {| status := status response;
     resp_headers := resp_headers response;
     resp_cookies := (resp_cookies response ++
       [{| cookie_key := key; cookie_value := value;
           secure := sec; httponly := http |}])%list |}.

(** [flask.redirect(location)] *)
Definition redirect (location : string) : Response :=
  {| status := 302;
     resp_headers := [("Location", location)];
     resp_cookies := [] |}.

(** [urllib.quote_plus(request.referrer)]: the function iterates over its
    argument, so [None] raises [TypeError]. *)
Definition quote_plus (w : World) (s : option string) : res string :=
  match s with
  | Some r => Ret (urllib_quote_plus w r)
  | None => Raise TypeError
  end.

(** The classes named in the [except] clause. *)
Definition caught (e : exn) : bool :=
  match e with
  | ExpiredSignatureError | JWTClaimsError | JWTError => true
  | _ => false
  end.

(** ** JwtFlask.process_response *)

(** [get_jwt_public_key()] followed by the conditional expression that
    picks [jwt.get_unverified_claims] for the empty key and [jwt.decode]
    otherwise.  The test [public_key is ''] compares with the interned
    empty string; it is modelled as equality of strings. *)
Definition decode_cookie (w : World) (jwttoken : string)
  : res (gmap string jval) :=
  public_key ← get_jwt_public_key w;
  if decide (public_key = "")
  then jwt_get_unverified_claims w jwttoken
  else jwt_decode w jwttoken public_key.

(** The chained comparison [iat + 1200 < now <= exp]: the right comparison
    is evaluated only when the left one holds. *)
Definition refresh_condition (iat exp : jval) (now : Q) : res bool :=
  iat_1200 ← plus_1200 iat;
  Ret (int_lt_float iat_1200 now && float_le now exp).

(** The body of the [try] block: it ends with the response, on which a
    cookie may have been set, or with an exception. *)
Definition try_block (st : Settings) (w : World) (jwttoken : string)
    (response : Response) : Hook Response :=
  jwt_decoded ← lift (decode_cookie w jwttoken);
  iat ← lift (getitem jwt_decoded "iat");
  exp ← lift (getitem jwt_decoded "exp");
  let now := time_time w in
  due ← lift (refresh_condition iat exp now);
  if due : bool then
    let email := jwt_decoded !! "email" in
    resp ← post w {| url := REMOTE_JWT_REFRESH_PROVIDER st;
                     headers := [("Authorization", "Bearer " +:+ jwttoken)];
                     data := [("email", email)] |};
    has_jwt ← lift (if status_code resp <? 300
                    then d ← getattr_data resp;
                         Ret (bool_decide (is_Some (d !! "jwt")))
                    else Ret false);
    if has_jwt : bool then
      d ← lift (getattr_data resp);
      new_jwt ← lift (getitem d "jwt");
      mret (set_cookie response "jwt" new_jwt true true)
    else if status_code resp =? 401 then
      lift (Raise JWTError)
    else mret response
  else if float_gt now exp then
    lift (Raise JWTClaimsError)
  else mret response.

Definition process_response (st : Settings) (w : World) (request : Request)
    (response : Response) : Hook Response :=
  match cookies request !! "jwt" with
  | Some jwttoken =>
      match try_block st w jwttoken response with
      | (Ret response', sent) => (Flask_process_response w response', sent)
      | (Raise e, sent) =>
          if caught e then
            (quoted ← quote_plus w (referrer request);
             Ret (redirect (REMOTE_JWT_EXPIRED_ENDPOINT st +:+ quoted)), sent)
          else (Raise e, sent)
      end
  | None => (Flask_process_response w response, [])
  end.

(** ** create_app *)

Inductive app_class : Type :=
  | Flask
  | JwtFlask.

Inductive config_value : Type :=
  | CfgStr (s : string)
  | CfgBool (b : bool)
  | CfgInt (n : Z)
  | CfgNone
  | CfgOther (repr : string).

(** The application object, as far as [create_app] writes to it.  [config]
    is the config as [create_app] itself leaves it (line 168); what the
    calls listed in [initialised] do to the object afterwards is outside
    this module. *)
Record App : Type := {
  class_of : app_class;
  import_name : string;
  template_folder : string;
  static_folder : string;
  static_url_path : string;
  proxy_fix : option Z;
  converters : gmap string string;
  config : gmap string config_value;
  sslify_skips : option (list string);
  sentry_release : option string;
  initialised : list string
}.

Definition version : string := "4.0.1".

(** [cls(__name__, template_folder=.., static_folder=.., static_url_path=..)].
    A new application starts from the default config of the framework,
    [default_config]. *)
Definition new_app (default_config : gmap string config_value)
    (cls : app_class) (name tf sf sup : string) : App :=
  {| class_of := cls; import_name := name;
     template_folder := tf; static_folder := sf; static_url_path := sup;
     proxy_fix := None; converters := ∅; config := default_config;
     sslify_skips := None; sentry_release := None; initialised := [] |}.

(** The calls made on the finished object, in order; what they do is
    outside this module. *)
Definition init_calls (load_admin : bool) : list string :=
  (["provision_app"; "db.init_app"; "migrate.init_app"] ++
   (if load_admin then ["init_admin"] else []) ++
   ["mail.init_app"; "setup_authentication"; "limiter.init_app";
    "handlers.init_app"; "configure_webpack"; "extensions.init_extensions"])%list.

(** [create_app]: the second component is [os.environ] after the call.
    [default_config] is [Flask.default_config] and [all_settings] is the
    dict returned by [settings.all_settings()]. *)
Definition create_app (default_config : gmap string config_value)
    (st : Settings) (all_settings : gmap string config_value)
    (environ : gmap string string) (load_admin : bool)
  : App * gmap string string :=
  let environ := <["SCRIPT_NAME" := ROOT_UI_URL st]> environ in
  let app :=
    if REMOTE_JWT_LOGIN_ENABLED st then
      new_app default_config JwtFlask "redash"
        (STATIC_ASSETS_PATH st) (STATIC_ASSETS_PATH st)
        (ROOT_UI_URL st +:+ "/static")
    else
      new_app default_config Flask "redash"
        (STATIC_ASSETS_PATH st) (STATIC_ASSETS_PATH st)
        (ROOT_UI_URL st +:+ "/static") in
  let cfg :=
    <["TEMPLATES_AUTO_RELOAD" := CfgBool true]>
      (<["APPLICATION_ROOT" := CfgStr (ROOT_UI_URL st)]> (config app)) in
  let cfg := <["SQLALCHEMY_DATABASE_URI" := CfgStr (SQLALCHEMY_DATABASE_URI st)]> cfg in
  ({| class_of := class_of app; import_name := import_name app;
      template_folder := template_folder app;
      static_folder := static_folder app;
      static_url_path := static_url_path app;
      proxy_fix := Some (PROXIES_COUNT st);
      converters := <["org_slug" := "SlugConverter"]> (converters app);
      config := all_settings ∪ cfg;
      sslify_skips := if ENFORCE_HTTPS st then Some ["ping"] else None;
      sentry_release := if decide (SENTRY_DSN st = "") then None
                        else Some version;
      initialised := init_calls load_admin |}, environ).

(** Method resolution for [app.process_response]: the subclass overrides
    it, the base class does not look at the request. *)
Definition app_process_response (app : App) (st : Settings) (w : World)
    (request : Request) (response : Response) : Hook Response :=
  match class_of app with
  | JwtFlask => process_response st w request response
  | Flask => lift (Flask_process_response w response)
  end.

(** ** Vocabulary for the statements

    These definitions are not part of the code; the properties below are
    phrased with them. *)

(** The request that line 123 sends for the token [jwttoken] and the claims
    [c]. *)
Definition refresh_request (st : Settings) (jwttoken : string)
    (c : gmap string jval) : http_request :=
  {| url := REMOTE_JWT_REFRESH_PROVIDER st;
     headers := [("Authorization", "Bearer " +:+ jwttoken)];
     data := [("email", c !! "email")] |}.

(** The outcome of lines 124-127 for the provider's answer [resp]. *)
Definition on_reply (response : Response) (resp : reply) : res Response :=
  if status_code resp <? 300 then
    match reply_data resp with
    | None => Raise AttributeError
    | Some d =>
        match d !! "jwt" with
        | Some new_jwt => Ret (set_cookie response "jwt" new_jwt true true)
        | None => Ret response
        end
    end
  else if status_code resp =? 401 then Raise JWTError
  else Ret response.

(** "The refresh condition holds and decoding succeeded": the request has
    a [jwt] cookie, the cookie decodes, the claims hold [iat] and [exp], and
    [iat + 1200 < now <= exp] evaluates to [True]. *)
Definition refresh_due (w : World) (request : Request) : Prop :=
  exists (jwttoken : string) (c : gmap string jval) (iat exp : jval),
    cookies request !! "jwt" = Some jwttoken /\
    decode_cookie w jwttoken = Ret c /\
    c !! "iat" = Some iat /\ c !! "exp" = Some exp /\
    refresh_condition iat exp (time_time w) = Ret true.

(** ** Sample inputs *)

Module Sample.

Definition settings (redis_url : string) (jwt_login : bool) : Settings :=
  {| REDIS_URL := redis_url;
     REMOTE_JWT_LOGIN_ENABLED := jwt_login;
     REMOTE_JWT_REFRESH_PROVIDER := "https://sso.example.org/refresh";
     REMOTE_JWT_EXPIRED_ENDPOINT := "https://sso.example.org/login?next=";
     STATIC_ASSETS_PATH := "/app/client/dist";
     ROOT_UI_URL := "/redash";
     PROXIES_COUNT := 1;
     ENFORCE_HTTPS := false;
     SENTRY_DSN := "";
     SQLALCHEMY_DATABASE_URI := "postgresql://postgres@db/postgres" |}.

(** [urlparse.urlparse] at the URLs used below. *)
Definition urlparse (u : string) : Redis.ParseResult :=
  if decide (u = "redis://localhost:6379/") then
    {| Redis.scheme := "redis"; Redis.path := "/"; Redis.query := "";
       Redis.hostname := Some "localhost"; Redis.port := Ret (Some 6379);
       Redis.password := None |}
  else if decide (u = "redis://localhost:6379/12") then
    {| Redis.scheme := "redis"; Redis.path := "/12"; Redis.query := "";
       Redis.hostname := Some "localhost"; Redis.port := Ret (Some 6379);
       Redis.password := None |}
  else if decide (u = "redis://:p%40ss@cache:6380/3") then
    {| Redis.scheme := "redis"; Redis.path := "/3"; Redis.query := "";
       Redis.hostname := Some "cache"; Redis.port := Ret (Some 6380);
       Redis.password := Some "p%40ss" |}
  else if decide (u = "redis://localhost:6379") then
    {| Redis.scheme := "redis"; Redis.path := ""; Redis.query := "";
       Redis.hostname := Some "localhost"; Redis.port := Ret (Some 6379);
       Redis.password := None |}
  else if decide (u = "redis+socket:///tmp/redis.sock?virtual_host=3") then
    {| Redis.scheme := "redis+socket"; Redis.path := "/tmp/redis.sock";
       Redis.query := "virtual_host=3";
       Redis.hostname := None; Redis.port := Ret None;
       Redis.password := None |}
  else
    {| Redis.scheme := ""; Redis.path := u; Redis.query := "";
       Redis.hostname := None; Redis.port := Ret None;
       Redis.password := None |}.

Definition parse_qs (q : string) : gmap string (list string) :=
  if decide (q = "virtual_host=3") then {[ "virtual_host" := ["3"] ]} else ∅.

Definition unquote (s : string) : string :=
  if decide (s = "p%40ss") then "p@ss" else s.

Definition urllib : Redis.UrlLib :=
  {| Redis.urlparse := urlparse; Redis.parse_qs := parse_qs;
     Redis.unquote := unquote |}.

(** [urllib.quote_plus] on a byte string: letters, digits and [_.-] are
    kept, a space becomes [+], any other byte becomes [%XX]. *)
Definition hex_digit (n : N) : ascii :=
  if (n <? 10)%N then ascii_of_N (48 + n) else ascii_of_N (55 + n).

Definition always_safe (c : ascii) : bool :=
  let n := N_of_ascii c in
  ((48 <=? n) && (n <=? 57) || (65 <=? n) && (n <=? 90) ||
   (97 <=? n) && (n <=? 122) || (n =? 95) || (n =? 46) || (n =? 45))%N.

Definition quote_byte (c : ascii) : string :=
  let n := N_of_ascii c in
  if always_safe c then String c EmptyString
  else if (n =? 32)%N then "+"
  else String "%" (String (hex_digit (n / 16)) (String (hex_digit (n mod 16))
         EmptyString)).

Fixpoint py_quote_plus (s : string) : string :=
  match s with
  | EmptyString => EmptyString
  | String c rest => quote_byte c +:+ py_quote_plus rest
  end.

(** A world in which the public key is empty, every token decodes to
    [claims], the clock shows [now] and the refresh provider answers
    [answer]. *)
Definition world (claims : gmap string jval) (now : Q) (answer : res reply)
  : World :=
  {| get_jwt_public_key := Ret "";
     jwt_get_unverified_claims := fun _ => Ret claims;
     jwt_decode := fun _ _ => Ret claims;
     time_time := now;
     requests_post := fun _ => answer;
     urllib_quote_plus := py_quote_plus;
     Flask_process_response := fun r => Ret r |}.

Definition request (referrer : option string) : Request :=
  {| cookies := {[ "jwt" := "tok" ]}; referrer := referrer |}.

Definition response : Response :=
  {| status := 200; resp_headers := []; resp_cookies := [] |}.

Definition claims (iat exp : Z) : gmap string jval :=
  {[ "iat" := JInt iat; "exp" := JInt exp ]}.

Definition no_answer : res reply := Raise (OtherError "ConnectionError").

Definition answer (code : Z) (d : gmap string string) : res reply :=
  Ret {| status_code := code; reply_data := Some d |}.

(** Issued at 0, expired at 10, looked at 100 seconds after the epoch. *)
Definition expired_world : World := world (claims 0 10) 100 no_answer.

(** Expired at 10 and without an [iat] claim. *)
Definition no_iat_world : World :=
  world {[ "exp" := JInt 10 ]} 100 no_answer.

(** Issued at 0, valid until 10000, looked at 5000: refresh is due, and
    the provider hands out the token ["new"]. *)
Definition refresh_world : World :=
  world (claims 0 10000) 5000 (answer 200 {[ "jwt" := "new" ]}).

End Sample.

(** ** setup_logging *)

Module Logging.

Inductive stream : Type :=
  | stdout
  | stderr.

(** A [logging.StreamHandler] with the format string of its formatter. *)
Record StreamHandler : Type := {
  handler_stream : stream;
  handler_format : string
}.

(** The part of the state of the [logging] module that [setup_logging]
    touches: the handlers of the root logger, and the level given to each
    logger, by name.  The root logger is the one [getLogger] returns for the
    empty name. *)
Record state : Type := {
  root_handlers : list StreamHandler;
  level_of : gmap string Z
}.

(** The three settings read by [setup_logging]. *)
Record LogSettings : Type := {
  LOG_STDOUT : bool;
  LOG_FORMAT : string;
  LOG_LEVEL : string
}.

(** A call on the logging state: the outcome and the state it leaves. *)
Definition LogM (A : Type) : Type := state -> res A * state.

#[global] Instance LogM_ret : MRet LogM := fun A a s => (Ret a, s).
#[global] Instance LogM_bind : MBind LogM := fun A B k m s =>
  match m s with
  | (Ret a, s') => k a s'
  | (Raise e, s') => (Raise e, s')
  end.

(** [logging.getLogger().addHandler(handler)]: the handler is a new object,
    so it is appended whatever the list holds. *)
Definition addHandler (h : StreamHandler) : LogM unit := fun s =>
  (Ret tt, {| root_handlers := (root_handlers s ++ [h])%list;
              level_of := level_of s |}).

(** [logging.getLogger(name).setLevel(level)].  The level name is looked up
    by the library ([checkLevel]), which raises for a name it does not
    know; the logger is left alone in that case. *)
Definition setLevel (checkLevel : string -> res Z) (name level : string)
  : LogM unit := fun s =>
  match checkLevel level with
  | Ret n => (Ret tt, {| root_handlers := root_handlers s;
                         level_of := <[name := n]> (level_of s) |})
  | Raise e => (Raise e, s)
  end.

Definition setup_logging (checkLevel : string -> res Z) (ls : LogSettings)
  : LogM unit :=
  let handler :=
    {| handler_stream := if LOG_STDOUT ls then stdout else stderr;
       handler_format := LOG_FORMAT ls |} in
  _ ← addHandler handler;
  _ ← setLevel checkLevel "" (LOG_LEVEL ls);
  if decide (LOG_LEVEL ls <> "DEBUG") then
    _ ← setLevel checkLevel "passlib" "ERROR";
    _ ← setLevel checkLevel "requests.packages.urllib3" "ERROR";
    _ ← setLevel checkLevel "snowflake.connector" "ERROR";
    setLevel checkLevel "apiclient" "ERROR"
  else mret tt.

(** The handler built from the settings, and the loggers that are
    silenced. *)
Definition handler_of (ls : LogSettings) : StreamHandler :=
  {| handler_stream := if LOG_STDOUT ls then stdout else stderr;
     handler_format := LOG_FORMAT ls |}.

Definition noisy : list string :=
  ["passlib"; "requests.packages.urllib3"; "snowflake.connector";
   "apiclient"].

End Logging.

(** ** Further vocabulary and sample inputs *)

(** The world [w] with another [jwt.get_unverified_claims]. *)
Definition with_unverified_claims (w : World)
    (f : string -> res (gmap string jval)) : World :=
  {| get_jwt_public_key := get_jwt_public_key w;
     jwt_get_unverified_claims := f;
     jwt_decode := jwt_decode w;
     time_time := time_time w;
     requests_post := requests_post w;
     urllib_quote_plus := urllib_quote_plus w;
     Flask_process_response := Flask_process_response w |}.

(** The world [w] with another [jwt.decode]. *)
Definition with_decode (w : World)
    (g : string -> string -> res (gmap string jval)) : World :=
  {| get_jwt_public_key := get_jwt_public_key w;
     jwt_get_unverified_claims := jwt_get_unverified_claims w;
     jwt_decode := g;
     time_time := time_time w;
     requests_post := requests_post w;
     urllib_quote_plus := urllib_quote_plus w;
     Flask_process_response := Flask_process_response w |}.

Module MoreSamples.

(** [urlparse.urlparse] at a socket URL that also names a host and a
    password, at two URLs whose port is not a number, and at the URLs of
    [Sample.urlparse]. *)
Definition urlparse (u : string) : Redis.ParseResult :=
  if decide (u = "redis+socket://:secret@cache/tmp/redis.sock?virtual_host=3")
  then
    {| Redis.scheme := "redis+socket"; Redis.path := "/tmp/redis.sock";
       Redis.query := "virtual_host=3";
       Redis.hostname := Some "cache"; Redis.port := Ret None;
       Redis.password := Some "secret" |}
  else if decide (u = "redis://localhost:abc/12") then
    {| Redis.scheme := "redis"; Redis.path := "/12"; Redis.query := "";
       Redis.hostname := Some "localhost"; Redis.port := Raise ValueError;
       Redis.password := None |}
  else if decide (u = "redis://localhost:abc/") then
    {| Redis.scheme := "redis"; Redis.path := "/"; Redis.query := "";
       Redis.hostname := Some "localhost"; Redis.port := Raise ValueError;
       Redis.password := None |}
  else Sample.urlparse u.

Definition urllib : Redis.UrlLib :=
  {| Redis.urlparse := urlparse; Redis.parse_qs := Sample.parse_qs;
     Redis.unquote := Sample.unquote |}.

(** The level names [logging] knows when nothing has been registered. *)
Definition checkLevel (level : string) : res Z :=
  if decide (level = "CRITICAL") then Ret 50
  else if decide (level = "ERROR") then Ret 40
  else if decide (level = "WARNING") then Ret 30
  else if decide (level = "WARN") then Ret 30
  else if decide (level = "INFO") then Ret 20
  else if decide (level = "DEBUG") then Ret 10
  else if decide (level = "NOTSET") then Ret 0
  else Raise (OtherError "ValueError").

Definition log_settings (level : string) : Logging.LogSettings :=
  {| Logging.LOG_STDOUT := false;
     Logging.LOG_FORMAT := "[%(asctime)s] %(message)s";
     Logging.LOG_LEVEL := level |}.

(** A few entries of the default config of the framework. *)
Definition flask_defaults : gmap string config_value :=
  {[ "DEBUG" := CfgBool false; "TESTING" := CfgBool false;
     "SECRET_KEY" := CfgNone ]}.

Definition no_logging : Logging.state :=
  {| Logging.root_handlers := []; Logging.level_of := ∅ |}.

(** A world with the public key [key], a verifying decoder that rejects
    every token and a non-verifying one that accepts every token. *)
Definition keyed_world (key : string) : World :=
  {| get_jwt_public_key := Ret key;
     jwt_get_unverified_claims := fun _ => Ret (Sample.claims 0 10000);
     jwt_decode := fun _ _ => Raise JWTError;
     time_time := 100;
     requests_post := fun _ => Sample.no_answer;
     urllib_quote_plus := Sample.py_quote_plus;
     Flask_process_response := fun r => Ret r |}.

End MoreSamples.

(** * Properties of create_redis_connection *)

Section RedisConnection.

Import Redis.

Variables (lib : UrlLib) (st : Settings).

Local Abbreviation redis_url := (urlparse lib (REDIS_URL st)).

(** The socket branch with a [virtual_host] parameter in the query. *)
Lemma socket_virtual_host (v : string) (vs : list string) :
  scheme redis_url = "redis+socket" ->
  parse_qs lib (query redis_url) !! "virtual_host" = Some (v :: vs) ->
  create_redis_connection lib st
  = Ret (UnixSocket (path redis_url) (DbStr v)).
Proof.
  intros Hs Hq. unfold create_redis_connection.
  destruct (decide (scheme redis_url = "redis+socket")) as [_|Hn]; [|done].
  now rewrite Hq.
Qed.

(** The socket branch without a [virtual_host] parameter. *)
Lemma socket_default_db :
  scheme redis_url = "redis+socket" ->
  parse_qs lib (query redis_url) !! "virtual_host" = None ->
  create_redis_connection lib st
  = Ret (UnixSocket (path redis_url) (DbInt 0)).
Proof.
  intros Hs Hq. unfold create_redis_connection.
  destruct (decide (scheme redis_url = "redis+socket")) as [_|Hn]; [|done].
  now rewrite Hq.
Qed.

(** Any other scheme, empty path: database [0], once the port is read. *)
Lemma tcp_empty_path :
  scheme redis_url <> "redis+socket" ->
  path redis_url = "" ->
  create_redis_connection lib st
  = redis_port ← port redis_url;
    Ret (Tcp (hostname redis_url) redis_port (DbInt 0)
             (redis_password lib (password redis_url))).
Proof.
  intros Hs Hp. unfold create_redis_connection.
  destruct (decide (scheme redis_url = "redis+socket")) as [He|_]; [done|].
  destruct (decide (path redis_url = "")) as [_|Hn]; [done|done].
Qed.

(** Any other scheme, non-empty path: the database is [path[1]], and the
    port is read after it. *)
Lemma tcp_path_index_1 :
  scheme redis_url <> "redis+socket" ->
  path redis_url <> "" ->
  create_redis_connection lib st
  = db ← str_index (path redis_url) 1;
    redis_port ← port redis_url;
    Ret (Tcp (hostname redis_url) redis_port (DbStr db)
             (redis_password lib (password redis_url))).
Proof.
  intros Hs Hp. unfold create_redis_connection.
  destruct (decide (scheme redis_url = "redis+socket")) as [He|_]; [done|].
  destruct (decide (path redis_url = "")) as [He|_]; [done|].
  now destruct (str_index (path redis_url) 1).
Qed.

(** The password is unquoted exactly when it is a non-empty string. *)
Lemma redis_password_unquoted (p : string) :
  p <> "" -> redis_password lib (Some p) = Some (unquote lib p).
Proof.
  intros Hp. unfold redis_password. now destruct (decide (p = "")).
Qed.

(** C9: for a scheme other than [redis+socket] and a non-empty path, the
    database is exactly the one character at index 1 of the path, and the
    call fails with [IndexError] when the path has no such character; so a
    path [/12] selects database ["1"] and the path [/] raises.  The
    database is selected before the port of the URL is read: when that
    raises, its exception is the outcome, and otherwise the connection is
    built with the selected database. *)
Theorem C9_db_is_second_character_of_path :
  scheme redis_url <> "redis+socket" ->
  path redis_url <> "" ->
  (forall c : ascii,
     String.get 1 (path redis_url) = Some c ->
     create_redis_connection lib st
     = redis_port ← port redis_url;
       Ret (Tcp (hostname redis_url) redis_port
                (DbStr (String c EmptyString))
                (redis_password lib (password redis_url)))) /\
  (String.get 1 (path redis_url) = None ->
     create_redis_connection lib st = Raise IndexError) /\
  (path redis_url = "/12" ->
     create_redis_connection lib st
     = redis_port ← port redis_url;
       Ret (Tcp (hostname redis_url) redis_port (DbStr "1")
                (redis_password lib (password redis_url)))) /\
  (path redis_url = "/" ->
     create_redis_connection lib st = Raise IndexError).
Proof.
  intros Hs Hp. rewrite (tcp_path_index_1 Hs Hp). unfold str_index.
  repeat split.
  - intros c Hc. now rewrite Hc.
  - intros Hc. now rewrite Hc.
  - intros Hq. now rewrite Hq.
  - intros Hq. now rewrite Hq.
Qed.

End RedisConnection.

(** C9, at the URL [redis://localhost:6379/12]. *)
Lemma C9_witness :
  Redis.create_redis_connection Sample.urllib
    (Sample.settings "redis://localhost:6379/12" true)
  = Ret (Redis.Tcp (Some "localhost") (Some 6379) (Redis.DbStr "1") None).
Proof.
  refine (proj1 (proj2 (proj2 (C9_db_is_second_character_of_path
            Sample.urllib (Sample.settings "redis://localhost:6379/12" true)
            _ _))) _).
  - vm_compute. discriminate.
  - vm_compute. discriminate.
  - reflexivity.
Defined.

(** C5: at the URL [redis://localhost:6379/], whose scheme is not
    [redis+socket] and whose path is [/], no connection object is built:
    [redis_url.path[1]] raises [IndexError]. *)
Theorem C5_slash_path_raises :
  Redis.scheme (Sample.urlparse "redis://localhost:6379/") = "redis" /\
  Redis.path (Sample.urlparse "redis://localhost:6379/") = "/" /\
  Redis.create_redis_connection Sample.urllib
    (Sample.settings "redis://localhost:6379/" true)
  = Raise IndexError.
Proof. repeat split. Qed.

Example redis_socket_sample :
  Redis.create_redis_connection Sample.urllib
    (Sample.settings "redis+socket:///tmp/redis.sock?virtual_host=3" true)
  = Ret (Redis.UnixSocket "/tmp/redis.sock" (Redis.DbStr "3")).
Proof. reflexivity. Qed.

Example redis_password_sample :
  Redis.create_redis_connection Sample.urllib
    (Sample.settings "redis://:p%40ss@cache:6380/3" true)
  = Ret (Redis.Tcp (Some "cache") (Some 6380) (Redis.DbStr "3")
           (Some "p@ss")).
Proof. reflexivity. Qed.

Example redis_no_path_sample :
  Redis.create_redis_connection Sample.urllib
    (Sample.settings "redis://localhost:6379" true)
  = Ret (Redis.Tcp (Some "localhost") (Some 6379) (Redis.DbInt 0) None).
Proof. reflexivity. Qed.

(** * Properties of the hook monad *)

Lemma bind_lift_ret {A B : Type} (a : A) (k : A -> Hook B) :
  lift (Ret a) ≫= k = k a.
Proof. unfold lift, mbind, Hook_bind. now destruct (k a). Qed.

Lemma bind_lift_raise {A B : Type} (e : exn) (k : A -> Hook B) :
  lift (Raise e) ≫= k = (Raise e, []).
Proof. reflexivity. Qed.

Lemma bind_post {B : Type} (w : World) (rq : http_request)
    (k : reply -> Hook B) :
  post w rq ≫= k
  = match requests_post w rq with
    | Ret resp => (fst (k resp), rq :: snd (k resp))
    | Raise e => (Raise e, [rq])
    end.
Proof.
  unfold post, mbind, Hook_bind.
  destruct (requests_post w rq) as [resp|e]; [|done]. now destruct (k resp).
Qed.

Ltac hook_simpl :=
  repeat first [ rewrite bind_lift_ret | rewrite bind_lift_raise ].

(** ** The sign of the comparisons *)

Lemma int_lt_float_iff (n : Z) (x : Q) :
  int_lt_float n x = true <-> (inject_Z n < x)%Q.
Proof.
  unfold int_lt_float. rewrite negb_true_iff.
  split.
  - intros H. apply Qnot_le_lt. intros Hle.
    apply Qle_bool_iff in Hle. congruence.
  - intros H. destruct (Qle_bool x (inject_Z n)) eqn:E; [|done].
    apply Qle_bool_iff in E. exfalso. exact (Qlt_not_le _ _ H E).
Qed.

Lemma float_le_int_iff (x : Q) (n : Z) :
  float_le x (JInt n) = true <-> (x <= inject_Z n)%Q.
Proof. apply Qle_bool_iff. Qed.

Lemma float_gt_int_iff (x : Q) (n : Z) :
  float_gt x (JInt n) = true <-> (inject_Z n < x)%Q.
Proof. apply int_lt_float_iff. Qed.

(** For integer claims the chained comparison is the arithmetic one. *)
Lemma refresh_condition_true (iat exp : Z) (now : Q) :
  (inject_Z (iat + 1200) < now)%Q -> (now <= inject_Z exp)%Q ->
  refresh_condition (JInt iat) (JInt exp) now = Ret true.
Proof.
  intros H1 H2. unfold refresh_condition. cbn.
  apply int_lt_float_iff in H1. apply float_le_int_iff in H2.
  cbn in H2. now rewrite H1, H2.
Qed.

(** An expired token never meets the refresh condition. *)
Lemma refresh_condition_expired (iat exp : Z) (now : Q) :
  (inject_Z exp < now)%Q ->
  refresh_condition (JInt iat) (JInt exp) now = Ret false.
Proof.
  intros H. unfold refresh_condition. cbn.
  apply float_gt_int_iff in H. unfold float_gt in H.
  apply negb_true_iff in H. rewrite H. now rewrite andb_false_r.
Qed.

(** * The [try] block, case by case *)

Section TryBlock.

Variables (st : Settings) (w : World) (jwttoken : string).
Variable response : Response.

Lemma try_block_decode_raises (e : exn) :
  decode_cookie w jwttoken = Raise e ->
  try_block st w jwttoken response = (Raise e, []).
Proof. intros H. unfold try_block. rewrite H. now hook_simpl. Qed.

Lemma try_block_missing_claim (c : gmap string jval) :
  decode_cookie w jwttoken = Ret c ->
  c !! "iat" = None \/ c !! "exp" = None ->
  try_block st w jwttoken response = (Raise KeyError, []).
Proof.
  intros H Hm. unfold try_block. rewrite H. hook_simpl.
  unfold getitem. destruct (c !! "iat") as [iat|]; hook_simpl; [|done].
  destruct Hm as [Hm|Hm]; [done|]. now rewrite Hm.
Qed.

Lemma try_block_condition_raises (c : gmap string jval)
    (iat exp : jval) (e : exn) :
  decode_cookie w jwttoken = Ret c ->
  c !! "iat" = Some iat -> c !! "exp" = Some exp ->
  refresh_condition iat exp (time_time w) = Raise e ->
  try_block st w jwttoken response = (Raise e, []).
Proof.
  intros H Hi He Hc. unfold try_block, getitem.
  rewrite H. hook_simpl. rewrite Hi. hook_simpl. rewrite He. hook_simpl.
  rewrite Hc. now hook_simpl.
Qed.

(** Outside the refresh window nothing is sent: an expired token raises
    [JWTClaimsError], a fresh one leaves the response alone. *)
Lemma try_block_no_refresh (c : gmap string jval) (iat exp : jval) :
  decode_cookie w jwttoken = Ret c ->
  c !! "iat" = Some iat -> c !! "exp" = Some exp ->
  refresh_condition iat exp (time_time w) = Ret false ->
  try_block st w jwttoken response
  = if float_gt (time_time w) exp then (Raise JWTClaimsError, [])
    else (Ret response, []).
Proof.
  intros H Hi He Hc. unfold try_block, getitem.
  rewrite H. hook_simpl. rewrite Hi. hook_simpl. rewrite He. hook_simpl.
  rewrite Hc. hook_simpl. now destruct (float_gt (time_time w) exp).
Qed.

(** Inside the refresh window exactly one request is sent, and the outcome
    is decided by the answer. *)
Lemma try_block_refresh (c : gmap string jval) (iat exp : jval) :
  decode_cookie w jwttoken = Ret c ->
  c !! "iat" = Some iat -> c !! "exp" = Some exp ->
  refresh_condition iat exp (time_time w) = Ret true ->
  try_block st w jwttoken response
  = (resp ← requests_post w (refresh_request st jwttoken c);
     on_reply response resp,
     [refresh_request st jwttoken c]).
Proof.
  intros H Hi He Hc. unfold try_block, getitem.
  rewrite H. hook_simpl. rewrite Hi. hook_simpl. rewrite He. hook_simpl.
  rewrite Hc. hook_simpl. rewrite bind_post. fold (refresh_request st jwttoken c).
  destruct (requests_post w (refresh_request st jwttoken c)) as [resp|e];
    [|done].
  cbn [mbind res_bind]. unfold on_reply, getattr_data.
  destruct (status_code resp <? 300) eqn:Hlt.
  - destruct (reply_data resp) as [d|]; cbn [mbind res_bind]; hook_simpl;
      [|done].
    unfold getitem. destruct (d !! "jwt") as [v|] eqn:Hv.
    + rewrite bool_decide_eq_true_2 by eauto. now hook_simpl.
    + rewrite bool_decide_eq_false_2 by (intros [? ?]; done).
      assert ((status_code resp =? 401) = false) as ->; [|done].
      apply Z.ltb_lt in Hlt. apply Z.eqb_neq. lia.
  - hook_simpl. now destruct (status_code resp =? 401).
Qed.

End TryBlock.

(** * Properties of JwtFlask.process_response *)

Section ProcessResponse.

Variables (st : Settings) (w : World).
Variables (request : Request) (response : Response).

(** With a cookie, the hook is the [try] block followed by its two exits. *)
Lemma process_response_try (jwttoken : string) (r : res Response)
    (sent : list http_request) :
  cookies request !! "jwt" = Some jwttoken ->
  try_block st w jwttoken response = (r, sent) ->
  process_response st w request response
  = (match r with
     | Ret response' => Flask_process_response w response'
     | Raise e =>
         if caught e then
           quoted ← quote_plus w (referrer request);
           Ret (redirect (REMOTE_JWT_EXPIRED_ENDPOINT st +:+ quoted))
         else Raise e
     end, sent).
Proof.
  intros Hc Ht. unfold process_response. rewrite Hc, Ht.
  destruct r as [response'|e]; [done|]. now destruct (caught e).
Qed.

(** A caught exception and a referrer: the redirect to the login page. *)
Lemma caught_exception_redirects (jwttoken : string) (e : exn)
    (sent : list http_request) (r : string) :
  cookies request !! "jwt" = Some jwttoken ->
  try_block st w jwttoken response = (Raise e, sent) ->
  caught e = true ->
  referrer request = Some r ->
  process_response st w request response
  = (Ret (redirect (REMOTE_JWT_EXPIRED_ENDPOINT st +:+ urllib_quote_plus w r)),
     sent).
Proof.
  intros Hc Ht He Hr. rewrite (process_response_try jwttoken _ _ Hc Ht).
  now rewrite He, Hr.
Qed.

(** A caught exception and no referrer: the handler itself raises. *)
Lemma caught_exception_without_referrer (jwttoken : string) (e : exn)
    (sent : list http_request) :
  cookies request !! "jwt" = Some jwttoken ->
  try_block st w jwttoken response = (Raise e, sent) ->
  caught e = true ->
  referrer request = None ->
  process_response st w request response = (Raise TypeError, sent).
Proof.
  intros Hc Ht He Hr. rewrite (process_response_try jwttoken _ _ Hc Ht).
  now rewrite He, Hr.
Qed.

(** An exception of any other class leaves the hook. *)
Lemma other_exception_escapes (jwttoken : string) (e : exn)
    (sent : list http_request) :
  cookies request !! "jwt" = Some jwttoken ->
  try_block st w jwttoken response = (Raise e, sent) ->
  caught e = false ->
  process_response st w request response = (Raise e, sent).
Proof.
  intros Hc Ht He. rewrite (process_response_try jwttoken _ _ Hc Ht). now rewrite He.
Qed.

(** C10: without a [jwt] cookie the hook is the base class's
    [process_response] applied to the response it was given; nothing is
    sent, no cookie is set and no redirect is built. *)
Theorem C10_no_cookie_is_superclass_hook :
  cookies request !! "jwt" = None ->
  process_response st w request response
  = (Flask_process_response w response, []).
Proof. intros Hc. unfold process_response. now rewrite Hc. Qed.

(** C8: when the decoded claims lack [iat] or [exp], the lookup raises
    [KeyError]; that class is not named in the [except] clause, so the hook
    ends with this exception: no redirect, no normal return, nothing
    sent. *)
Theorem C8_missing_claim_escapes (jwttoken : string)
    (c : gmap string jval) :
  cookies request !! "jwt" = Some jwttoken ->
  decode_cookie w jwttoken = Ret c ->
  c !! "iat" = None \/ c !! "exp" = None ->
  caught KeyError = false /\
  process_response st w request response = (Raise KeyError, []).
Proof.
  intros Hc Hd Hm. split; [done|].
  apply (other_exception_escapes jwttoken); [done| |done].
  now apply (try_block_missing_claim _ _ _ _ c).
Qed.

(** C4 (amended): a cookie whose claims hold integers [iat] and [exp]
    with [exp < now], on a request that has a referrer: the [try] block
    raises [JWTClaimsError] and the hook returns the redirect to the login
    endpoint followed by the quoted referrer, having sent nothing. *)
Theorem C4_expired_token_redirects (jwttoken : string)
    (c : gmap string jval) (iat exp : Z) (r : string) :
  cookies request !! "jwt" = Some jwttoken ->
  decode_cookie w jwttoken = Ret c ->
  c !! "iat" = Some (JInt iat) ->
  c !! "exp" = Some (JInt exp) ->
  (inject_Z exp < time_time w)%Q ->
  referrer request = Some r ->
  try_block st w jwttoken response = (Raise JWTClaimsError, []) /\
  process_response st w request response
  = (Ret (redirect (REMOTE_JWT_EXPIRED_ENDPOINT st +:+ urllib_quote_plus w r)),
     []).
Proof.
  intros Hc Hd Hi He Hlt Hr.
  assert (try_block st w jwttoken response = (Raise JWTClaimsError, []))
    as Ht.
  { rewrite (try_block_no_refresh st w jwttoken response c _ _ Hd Hi He
               (refresh_condition_expired iat exp _ Hlt)).
    apply float_gt_int_iff in Hlt. now rewrite Hlt. }
  split; [exact Ht|].
  now apply (caught_exception_redirects jwttoken JWTClaimsError).
Qed.

End ProcessResponse.

(** C4 at a token issued at 0 and expired at 10, seen at time 100 on a
    request coming from [http://localhost/queries]. *)
Lemma C4_witness :
  process_response (Sample.settings "" true) Sample.expired_world
    (Sample.request (Some "http://localhost/queries")) Sample.response
  = (Ret (redirect
       "https://sso.example.org/login?next=http%3A%2F%2Flocalhost%2Fqueries"),
     []).
Proof.
  refine (proj2 (C4_expired_token_redirects (Sample.settings "" true)
            Sample.expired_world
            (Sample.request (Some "http://localhost/queries"))
            Sample.response "tok" (Sample.claims 0 10) 0 10
            "http://localhost/queries" _ _ _ _ _ _));
    try reflexivity.
Defined.

(** The statement of C4 without the [iat] claim: the token below has
    expired, but the hook ends with [KeyError] instead of a redirect. *)
Lemma C4_counterexample :
  cookies (Sample.request (Some "http://localhost/queries")) !! "jwt"
  = Some "tok" /\
  decode_cookie Sample.no_iat_world "tok" = Ret {[ "exp" := JInt 10 ]} /\
  (inject_Z 10 < time_time Sample.no_iat_world)%Q /\
  process_response (Sample.settings "" true) Sample.no_iat_world
    (Sample.request (Some "http://localhost/queries")) Sample.response
  = (Raise KeyError, []).
Proof. repeat split. Qed.

(** C1: the token below has expired, so the [try] block raises
    [JWTClaimsError], which the [except] clause catches; the request has no
    referrer, and instead of returning the redirect the hook ends with the
    [TypeError] raised by [quote_plus]. *)
Theorem C1_no_referrer_no_redirect :
  try_block (Sample.settings "" true) Sample.expired_world "tok"
    Sample.response
  = (Raise JWTClaimsError, []) /\
  caught JWTClaimsError = true /\
  referrer (Sample.request None) = None /\
  process_response (Sample.settings "" true) Sample.expired_world
    (Sample.request None) Sample.response
  = (Raise TypeError, []).
Proof. repeat split. Qed.

(** * The refresh *)

Section Refresh.

Variables (st : Settings) (w : World).
Variables (request : Request) (response : Response).

(** A reply object without a [data] attribute: the status code below 300
    makes the hook read it, and [AttributeError] leaves the hook. *)
Lemma refresh_reply_without_data (jwttoken : string)
    (c : gmap string jval) (iat exp : Z) (code : Z) :
  cookies request !! "jwt" = Some jwttoken ->
  decode_cookie w jwttoken = Ret c ->
  c !! "iat" = Some (JInt iat) ->
  c !! "exp" = Some (JInt exp) ->
  (inject_Z (iat + 1200) < time_time w)%Q ->
  (time_time w <= inject_Z exp)%Q ->
  requests_post w (refresh_request st jwttoken c)
  = Ret {| status_code := code; reply_data := None |} ->
  code < 300 ->
  process_response st w request response
  = (Raise AttributeError, [refresh_request st jwttoken c]).
Proof.
  intros Hc Hd Hi He Hlo Hhi Hp Hcode.
  pose proof (try_block_refresh st w jwttoken response c _ _ Hd Hi He
                (refresh_condition_true iat exp _ Hlo Hhi)) as Ht.
  rewrite Hp in Ht. cbn [mbind res_bind] in Ht. unfold on_reply in Ht.
  cbn [status_code reply_data] in Ht.
  apply Z.ltb_lt in Hcode. rewrite Hcode in Ht.
  now apply (other_exception_escapes st w request response jwttoken).
Qed.

(** The requests sent by the [try] block: the refresh request when the
    refresh is due, none otherwise. *)
Lemma try_block_sent (jwttoken : string) :
  cookies request !! "jwt" = Some jwttoken ->
  (refresh_due w request /\
   exists c, decode_cookie w jwttoken = Ret c /\
     snd (try_block st w jwttoken response)
     = [refresh_request st jwttoken c]) \/
  (~ refresh_due w request /\ snd (try_block st w jwttoken response) = []).
Proof.
  intros Hc.
  destruct (decode_cookie w jwttoken) as [c|e] eqn:Hd.
  2:{ right. split.
      - intros (t & c & i & x & Ht & Hd' & _). congruence.
      - now rewrite (try_block_decode_raises st w jwttoken response e). }
  destruct (c !! "iat") as [iat|] eqn:Hi.
  2:{ right. split.
      - intros (t & c' & i & x & Ht & Hd' & Hi' & _). congruence.
      - rewrite (try_block_missing_claim st w jwttoken response c); auto. }
  destruct (c !! "exp") as [exp|] eqn:He.
  2:{ right. split.
      - intros (t & c' & i & x & Ht & Hd' & _ & He' & _). congruence.
      - rewrite (try_block_missing_claim st w jwttoken response c); auto. }
  destruct (refresh_condition iat exp (time_time w)) as [[|]|e] eqn:Hr.
  - left. split.
    + exists jwttoken, c, iat, exp. auto.
    + exists c. split; [done|].
      now rewrite (try_block_refresh st w jwttoken response c iat exp).
  - right. split.
    + intros (t & c' & i & x & Ht & Hd' & Hi' & He' & Hr'). congruence.
    + rewrite (try_block_no_refresh st w jwttoken response c iat exp);
        auto.
      now destruct (float_gt (time_time w) exp).
  - right. split.
    + intros (t & c' & i & x & Ht & Hd' & Hi' & He' & Hr'). congruence.
    + now rewrite (try_block_condition_raises st w jwttoken response
                     c iat exp e).
Qed.

(** Both exits of the hook send nothing more than the [try] block did. *)
Lemma process_response_sent (jwttoken : string) :
  cookies request !! "jwt" = Some jwttoken ->
  snd (process_response st w request response)
  = snd (try_block st w jwttoken response).
Proof.
  intros Hc.
  destruct (try_block st w jwttoken response) as [r sent] eqn:Ht.
  now rewrite (process_response_try st w request response jwttoken r sent).
Qed.

(** C7: one call of the hook sends at most one request to the refresh
    provider: exactly one, the POST of the token to
    [REMOTE_JWT_REFRESH_PROVIDER], when the refresh is due, and none
    otherwise.  The list does not depend on what the provider answers: it
    is a function of the cookie and of its decoding. *)
Theorem C7_at_most_one_request :
  (length (snd (process_response st w request response)) <= 1)%nat /\
  (refresh_due w request ->
   exists jwttoken c,
     cookies request !! "jwt" = Some jwttoken /\
     decode_cookie w jwttoken = Ret c /\
     snd (process_response st w request response)
     = [refresh_request st jwttoken c]) /\
  (~ refresh_due w request ->
   snd (process_response st w request response) = []).
Proof.
  destruct (cookies request !! "jwt") as [jwttoken|] eqn:Hc.
  - rewrite (process_response_sent jwttoken Hc).
    destruct (try_block_sent jwttoken Hc) as [[Hdue (c & Hd & Hs)]|[Hn Hs]];
      rewrite Hs; cbn [length].
    + split; [lia|]. split; [|tauto].
      intros _. now exists jwttoken, c.
    + split; [lia|]. split; [tauto|done].
  - assert (~ refresh_due w request) as Hn.
    { intros (t & c & i & x & Ht & _). congruence. }
    unfold process_response. rewrite Hc. cbn [snd length].
    split; [lia|]. split; [tauto|done].
Qed.

End Refresh.

(** C2: a token issued at 0 and valid until 10000, seen at time 5000, is
    due for refresh, and the POST carrying it as [Authorization: Bearer] is
    sent to [REMOTE_JWT_REFRESH_PROVIDER].  The provider answers 200; the
    object [requests.post] returns for it has a [status_code] and no
    [data] attribute, so the test on the answer raises [AttributeError]:
    no cookie is set and the hook ends with that exception. *)
Theorem C2_reply_of_requests_sets_no_cookie :
  refresh_condition (JInt 0) (JInt 10000) 5000 = Ret true /\
  snd (process_response (Sample.settings "" true)
         (Sample.world (Sample.claims 0 10000) 5000
            (Ret {| status_code := 200; reply_data := None |}))
         (Sample.request None) Sample.response)
  = [{| url := "https://sso.example.org/refresh";
        headers := [("Authorization", "Bearer tok")];
        data := [("email", None)] |}] /\
  caught AttributeError = false /\
  fst (process_response (Sample.settings "" true)
         (Sample.world (Sample.claims 0 10000) 5000
            (Ret {| status_code := 200; reply_data := None |}))
         (Sample.request None) Sample.response)
  = Raise AttributeError.
Proof. repeat split. Qed.

(** C7 at a token that is due for refresh: the one request goes to the
    provider. *)
Lemma C7_witness :
  exists jwttoken c,
    cookies (Sample.request None) !! "jwt" = Some jwttoken /\
    decode_cookie Sample.refresh_world jwttoken = Ret c /\
    snd (process_response (Sample.settings "" true) Sample.refresh_world
           (Sample.request None) Sample.response)
    = [refresh_request (Sample.settings "" true) jwttoken c].
Proof.
  refine (proj1 (proj2 (C7_at_most_one_request (Sample.settings "" true)
            Sample.refresh_world (Sample.request None) Sample.response)) _).
  exists "tok", (Sample.claims 0 10000), (JInt 0), (JInt 10000).
  repeat split.
Defined.

(** C8 at an expired token without [iat]. *)
Lemma C8_witness :
  process_response (Sample.settings "" true) Sample.no_iat_world
    (Sample.request (Some "http://localhost/queries")) Sample.response
  = (Raise KeyError, []).
Proof.
  refine (proj2 (C8_missing_claim_escapes (Sample.settings "" true)
            Sample.no_iat_world
            (Sample.request (Some "http://localhost/queries"))
            Sample.response "tok" {[ "exp" := JInt 10 ]} _ _ _)).
  - reflexivity.
  - reflexivity.
  - left. reflexivity.
Defined.

(** C10 at a request without cookies. *)
Lemma C10_witness :
  process_response (Sample.settings "" true) Sample.refresh_world
    {| cookies := ∅; referrer := None |} Sample.response
  = (Ret Sample.response, []).
Proof.
  refine (C10_no_cookie_is_superclass_hook (Sample.settings "" true)
            Sample.refresh_world {| cookies := ∅; referrer := None |}
            Sample.response _).
  reflexivity.
Defined.

Example quote_plus_sample :
  Sample.py_quote_plus "http://localhost:5000/queries/1?a b=c+d"
  = "http%3A%2F%2Flocalhost%3A5000%2Fqueries%2F1%3Fa+b%3Dc%2Bd".
Proof. reflexivity. Qed.

(** A provider that answers 401: the request has been sent, [JWTError] is
    raised and caught, and the user is sent to the login page. *)
Example refresh_denied_sample :
  process_response (Sample.settings "" true)
    (Sample.world (Sample.claims 0 10000) 5000
       (Ret {| status_code := 401; reply_data := None |}))
    (Sample.request (Some "http://localhost/queries")) Sample.response
  = (Ret (redirect
       "https://sso.example.org/login?next=http%3A%2F%2Flocalhost%2Fqueries"),
     [refresh_request (Sample.settings "" true) "tok"
        (Sample.claims 0 10000)]).
Proof. reflexivity. Qed.

(** A token that needs no refresh yet: the response goes to the base class
    untouched. *)
Example fresh_token_sample :
  process_response (Sample.settings "" true)
    (Sample.world (Sample.claims 4000 10000) 5000 Sample.no_answer)
    (Sample.request None) Sample.response
  = (Ret Sample.response, []).
Proof. reflexivity. Qed.

(** * Two calls of the hook *)

Lemma refresh_condition_Qeq (iat exp : jval) (x y : Q) :
  (x == y)%Q -> refresh_condition iat exp x = refresh_condition iat exp y.
Proof.
  intros H. unfold refresh_condition, int_lt_float, float_le.
  destruct iat as [n|s]; [|done]. cbn.
  rewrite (Qleb_comp x y H (inject_Z (n + 1200)) _ (Qeq_refl _)).
  destruct exp as [m|s]; [|done].
  now rewrite (Qleb_comp x y H (inject_Z m) _ (Qeq_refl _)).
Qed.

Lemma float_gt_Qeq (exp : jval) (x y : Q) :
  (x == y)%Q -> float_gt x exp = float_gt y exp.
Proof.
  intros H. destruct exp as [m|s]; [|done]. cbn.
  now rewrite (Qleb_comp x y H (inject_Z m) _ (Qeq_refl _)).
Qed.

Section TwoCalls.

Variables (st : Settings) (w1 w2 : World).
Variables (request1 request2 : Request) (response : Response).

Hypothesis same_cookie :
  cookies request1 !! "jwt" = cookies request2 !! "jwt".
Hypothesis same_referrer : referrer request1 = referrer request2.
Hypothesis same_time : (time_time w1 == time_time w2)%Q.
Hypothesis same_key : get_jwt_public_key w1 = get_jwt_public_key w2.
Hypothesis same_claims : forall jwttoken : string,
  cookies request1 !! "jwt" = Some jwttoken ->
  jwt_get_unverified_claims w1 jwttoken = jwt_get_unverified_claims w2 jwttoken
  /\ forall key, jwt_decode w1 jwttoken key = jwt_decode w2 jwttoken key.
Hypothesis same_reply : forall rq : http_request,
  requests_post w1 rq = requests_post w2 rq.
Hypothesis same_quoting : forall r : string,
  referrer request1 = Some r -> urllib_quote_plus w1 r = urllib_quote_plus w2 r.
Hypothesis same_base_class : forall r : Response,
  Flask_process_response w1 r = Flask_process_response w2 r.

Lemma decode_cookie_agrees (jwttoken : string) :
  cookies request1 !! "jwt" = Some jwttoken ->
  decode_cookie w1 jwttoken = decode_cookie w2 jwttoken.
Proof.
  intros Hc. unfold decode_cookie. rewrite same_key.
  destruct (get_jwt_public_key w2) as [key|e]; [|done]. cbn.
  destruct (same_claims jwttoken Hc) as [Hu Hd].
  now destruct (decide (key = "")).
Qed.

Lemma try_block_agrees (jwttoken : string) :
  cookies request1 !! "jwt" = Some jwttoken ->
  try_block st w1 jwttoken response = try_block st w2 jwttoken response.
Proof.
  intros Hc. pose proof (decode_cookie_agrees jwttoken Hc) as Hd.
  destruct (decode_cookie w2 jwttoken) as [c|e] eqn:Hd2.
  2:{ now rewrite !(try_block_decode_raises _ _ _ _ e). }
  destruct (c !! "iat") as [iat|] eqn:Hi.
  2:{ rewrite !(try_block_missing_claim _ _ _ _ c); auto. }
  destruct (c !! "exp") as [exp|] eqn:He.
  2:{ rewrite !(try_block_missing_claim _ _ _ _ c); auto. }
  pose proof (refresh_condition_Qeq iat exp _ _ same_time) as Hr.
  destruct (refresh_condition iat exp (time_time w2)) as [[|]|e] eqn:Hr2.
  - rewrite !(try_block_refresh _ _ _ _ c iat exp); auto.
    now rewrite same_reply.
  - rewrite !(try_block_no_refresh _ _ _ _ c iat exp); auto.
    now rewrite (float_gt_Qeq exp _ _ same_time).
  - now rewrite !(try_block_condition_raises _ _ _ _ c iat exp e).
Qed.

(** C6 (amended): two calls made with the same settings and the same
    response, on requests with the same [jwt] cookie and the same referrer,
    at the same time, with the same public key, the same decoding of the
    token, the same answer of the refresh provider, the same quoting and
    the same base-class hook, end with the same result and send the same
    requests: no call leaves anything behind for the next. *)
Theorem C6_same_inputs_same_result :
  process_response st w1 request1 response
  = process_response st w2 request2 response.
Proof.
  pose proof try_block_agrees as Hagree.
  unfold process_response. rewrite <- same_cookie.
  destruct (cookies request1 !! "jwt") as [jwttoken|].
  - rewrite (Hagree jwttoken eq_refl).
    destruct (try_block st w2 jwttoken response) as [[response'|e] sent].
    + now rewrite same_base_class.
    + destruct (caught e); [|done]. rewrite <- same_referrer.
      destruct (referrer request1) as [r|] eqn:Hr; [|done].
      cbn. now rewrite (same_quoting r).
  - now rewrite same_base_class.
Qed.

End TwoCalls.

(** C6 for two requests that differ in a cookie the hook does not read,
    and two worlds whose clocks show the same time as different
    fractions. *)
Lemma C6_witness :
  process_response (Sample.settings "" true)
    (Sample.world (Sample.claims 0 10000) (5000 # 1) Sample.no_answer)
    {| cookies := {[ "jwt" := "tok" ]}; referrer := Some "http://a/" |}
    Sample.response
  = process_response (Sample.settings "" true)
      (Sample.world (Sample.claims 0 10000) (10000 # 2) Sample.no_answer)
      {| cookies := {[ "jwt" := "tok"; "session" := "s" ]};
         referrer := Some "http://a/" |}
      Sample.response.
Proof.
  refine (C6_same_inputs_same_result (Sample.settings "" true)
            (Sample.world (Sample.claims 0 10000) (5000 # 1) Sample.no_answer)
            (Sample.world (Sample.claims 0 10000) (10000 # 2) Sample.no_answer)
            {| cookies := {[ "jwt" := "tok" ]}; referrer := Some "http://a/" |}
            {| cookies := {[ "jwt" := "tok"; "session" := "s" ]};
               referrer := Some "http://a/" |}
            Sample.response _ _ _ _ _ _ _ _).
  - reflexivity.
  - reflexivity.
  - reflexivity.
  - reflexivity.
  - intros jwttoken _. split; reflexivity.
  - reflexivity.
  - reflexivity.
  - reflexivity.
Defined.

(** The statement of C6 with only the cookie, the time, the settings, the
    public key and the provider's answer held fixed: the same expired
    token, presented by two requests with different referrers, is answered
    with two different redirects; and the same refreshed token, on two
    different responses, gives two different results. *)
Lemma C6_counterexample :
  cookies (Sample.request (Some "http://localhost/queries")) !! "jwt"
  = cookies (Sample.request (Some "http://localhost/dashboards")) !! "jwt" /\
  process_response (Sample.settings "" true) Sample.expired_world
    (Sample.request (Some "http://localhost/queries")) Sample.response
  <> process_response (Sample.settings "" true) Sample.expired_world
       (Sample.request (Some "http://localhost/dashboards")) Sample.response /\
  process_response (Sample.settings "" true) Sample.refresh_world
    (Sample.request None) Sample.response
  <> process_response (Sample.settings "" true) Sample.refresh_world
       (Sample.request None) (redirect "/").
Proof.
  split; [reflexivity|]. split; intros H; vm_compute in H; discriminate H.
Qed.

(** * Properties of create_app *)

(** C3: the application object is of class [JwtFlask], whose
    [process_response] is the cookie hook, exactly when
    [REMOTE_JWT_LOGIN_ENABLED] is set, and of class [Flask] otherwise; in
    both cases the template folder and the static folder are
    [STATIC_ASSETS_PATH] and the static URL path is [ROOT_UI_URL] followed
    by [/static]. *)
Theorem C3_create_app_class (default_config : gmap string config_value)
    (st : Settings) (all_settings : gmap string config_value)
    (environ : gmap string string) (load_admin : bool) :
  let app :=
    fst (create_app default_config st all_settings environ load_admin) in
  (class_of app = JwtFlask <-> REMOTE_JWT_LOGIN_ENABLED st = true) /\
  (class_of app = Flask <-> REMOTE_JWT_LOGIN_ENABLED st = false) /\
  (REMOTE_JWT_LOGIN_ENABLED st = true ->
   forall w request response,
     app_process_response app st w request response
     = process_response st w request response) /\
  (REMOTE_JWT_LOGIN_ENABLED st = false ->
   forall w request response,
     app_process_response app st w request response
     = (Flask_process_response w response, [])) /\
  template_folder app = STATIC_ASSETS_PATH st /\
  static_folder app = STATIC_ASSETS_PATH st /\
  static_url_path app = ROOT_UI_URL st +:+ "/static".
Proof.
  unfold create_app, app_process_response.
  destruct (REMOTE_JWT_LOGIN_ENABLED st); cbn; repeat split;
    intros; try done.
Qed.

(** C3 with the remote login switched on. *)
Lemma C3_witness :
  class_of (fst (create_app MoreSamples.flask_defaults
                   (Sample.settings "" true) ∅ ∅ true)) = JwtFlask.
Proof.
  refine (proj2 (proj1 (C3_create_app_class MoreSamples.flask_defaults
            (Sample.settings "" true) ∅ ∅ true)) _).
  reflexivity.
Defined.

(** * More on create_redis_connection *)

Lemma no_index_1_iff (s : string) :
  s <> "" /\ String.get 1 s = None <-> String.length s = 1%nat.
Proof.
  destruct s as [|c [|c' s']]; cbn; split; try done.
  - now intros [H _].
  - now intros [_ H].
Qed.

Section RedisOutcome.

Import Redis.

Variables (lib : UrlLib) (st : Settings).

Local Abbreviation redis_url := (urlparse lib (REDIS_URL st)).

(** X1: for a scheme other than [redis+socket] the port of the URL is
    read last.  When reading it raises (the text after the colon is not a
    number) and the path is empty or has a second character, the call ends
    with that exception and no connection is built; when the path is a
    single character, [IndexError] is raised first, whatever the port. *)
Theorem tcp_unreadable_port_raises (e : exn) :
  scheme redis_url <> "redis+socket" ->
  port redis_url = Raise e ->
  (String.length (path redis_url) <> 1%nat ->
   create_redis_connection lib st = Raise e) /\
  (String.length (path redis_url) = 1%nat ->
   create_redis_connection lib st = Raise IndexError).
Proof.
  intros Hs Hport.
  destruct (decide (path redis_url = "")) as [Hp|Hp].
  - rewrite (tcp_empty_path lib st Hs Hp), Hport, Hp. split; [done|].
    intros H. cbn in H. lia.
  - rewrite (tcp_path_index_1 lib st Hs Hp), Hport. unfold str_index.
    destruct (String.get 1 (path redis_url)) as [c|] eqn:Hg; cbn.
    + split; [done|]. intros H. apply no_index_1_iff in H.
      destruct H as [_ H]. congruence.
    + split; [|done]. intros H. exfalso. apply H.
      now apply no_index_1_iff.
Qed.

(** X2: for a scheme other than [redis+socket], a connection that is built
    carries the host and the port of the URL unchanged, and its database is
    either the integer 0 (empty path) or a string of exactly one character,
    the second one of the path: no path selects a database above 9. *)
Theorem tcp_connection_arguments (r : StrictRedis) :
  scheme redis_url <> "redis+socket" ->
  create_redis_connection lib st = Ret r ->
  exists (db : db_arg) (redis_port : option Z),
    port redis_url = Ret redis_port /\
    r = Tcp (hostname redis_url) redis_port db
            (redis_password lib (password redis_url)) /\
    (path redis_url = "" /\ db = DbInt 0
     \/
     exists c : ascii,
       String.get 1 (path redis_url) = Some c /\
       db = DbStr (String c EmptyString) /\
       String.length (String c EmptyString) = 1%nat).
Proof.
  intros Hs. unfold create_redis_connection.
  destruct (decide (scheme redis_url = "redis+socket")) as [He|_]; [done|].
  destruct (port redis_url) as [redis_port|e] eqn:Hport.
  2:{ destruct (decide (path redis_url = "")); cbn; [done|].
      now destruct (str_index (path redis_url) 1). }
  destruct (decide (path redis_url = "")) as [Hp|Hp]; cbn.
  - intros [= <-]. exists (DbInt 0), redis_port. split; [done|].
    split; [done|]. now left.
  - unfold str_index.
    destruct (String.get 1 (path redis_url)) as [c|] eqn:Hg; cbn; [|done].
    intros [= <-]. exists (DbStr (String c EmptyString)), redis_port.
    split; [done|]. split; [done|]. right. now exists c.
Qed.

End RedisOutcome.

(** X3: a socket URL is used for its path and its query only: two URLs
    with the scheme [redis+socket], the same path and the same query give
    the same connection, whatever host, port and password they name. *)
Theorem socket_ignores_authority (lib : Redis.UrlLib) (st1 st2 : Settings) :
  let u1 := Redis.urlparse lib (REDIS_URL st1) in
  let u2 := Redis.urlparse lib (REDIS_URL st2) in
  Redis.scheme u1 = "redis+socket" ->
  Redis.scheme u2 = "redis+socket" ->
  Redis.path u1 = Redis.path u2 ->
  Redis.query u1 = Redis.query u2 ->
  Redis.create_redis_connection lib st1
  = Redis.create_redis_connection lib st2.
Proof.
  intros u1 u2 H1 H2 Hp Hq. unfold Redis.create_redis_connection.
  fold u1 u2. rewrite H1, H2, Hp, Hq.
  now destruct (decide ("redis+socket" = "redis+socket")).
Qed.

(** X1 at [redis://localhost:abc/12]. *)
Lemma tcp_unreadable_port_raises_witness :
  Redis.create_redis_connection MoreSamples.urllib
    (Sample.settings "redis://localhost:abc/12" true)
  = Raise ValueError.
Proof.
  refine (proj1 (tcp_unreadable_port_raises MoreSamples.urllib
            (Sample.settings "redis://localhost:abc/12" true)
            ValueError _ _) _).
  - vm_compute. discriminate.
  - reflexivity.
  - vm_compute. discriminate.
Defined.

(** X2 at [redis://:p%40ss@cache:6380/3]. *)
Lemma tcp_connection_arguments_witness :
  exists (db : Redis.db_arg) (redis_port : option Z),
    Redis.port (Sample.urlparse "redis://:p%40ss@cache:6380/3")
    = Ret redis_port /\
    Redis.Tcp (Some "cache") (Some 6380) (Redis.DbStr "3") (Some "p@ss")
    = Redis.Tcp (Some "cache") redis_port db (Some "p@ss") /\
    (Redis.path (Sample.urlparse "redis://:p%40ss@cache:6380/3") = "" /\
     db = Redis.DbInt 0
     \/
     exists c : ascii,
       String.get 1 (Redis.path (Sample.urlparse "redis://:p%40ss@cache:6380/3"))
       = Some c /\
       db = Redis.DbStr (String c EmptyString) /\
       String.length (String c EmptyString) = 1%nat).
Proof.
  refine (tcp_connection_arguments Sample.urllib
            (Sample.settings "redis://:p%40ss@cache:6380/3" true)
            (Redis.Tcp (Some "cache") (Some 6380) (Redis.DbStr "3")
               (Some "p@ss")) _ _).
  - vm_compute. discriminate.
  - reflexivity.
Defined.

(** X3 at a socket URL with and without host and password. *)
Lemma socket_ignores_authority_witness :
  Redis.create_redis_connection MoreSamples.urllib
    (Sample.settings
       "redis+socket://:secret@cache/tmp/redis.sock?virtual_host=3" true)
  = Redis.create_redis_connection MoreSamples.urllib
      (Sample.settings "redis+socket:///tmp/redis.sock?virtual_host=3" true).
Proof.
  refine (socket_ignores_authority MoreSamples.urllib
            (Sample.settings
               "redis+socket://:secret@cache/tmp/redis.sock?virtual_host=3"
               true)
            (Sample.settings "redis+socket:///tmp/redis.sock?virtual_host=3"
               true) _ _ _ _); reflexivity.
Defined.

(** * More on the refresh window *)

(** X4: for integer claims the chained comparison never raises, and it
    holds exactly when [iat + 1200 < now] and [now <= exp]. *)
Theorem refresh_condition_window (iat exp : Z) (now : Q) :
  exists b : bool,
    refresh_condition (JInt iat) (JInt exp) now = Ret b /\
    (b = true <->
     (inject_Z (iat + 1200) < now)%Q /\ (now <= inject_Z exp)%Q).
Proof.
  unfold refresh_condition. cbn.
  exists (int_lt_float (iat + 1200) now && Qle_bool now (inject_Z exp)).
  split; [done|].
  rewrite andb_true_iff, int_lt_float_iff, Qle_bool_iff. tauto.
Qed.

(** A token that lives no longer than 1200 seconds has an empty window. *)
Lemma refresh_condition_short_lived (iat exp : Z) (now : Q) :
  exp <= iat + 1200 ->
  refresh_condition (JInt iat) (JInt exp) now = Ret false.
Proof.
  intros Hle.
  destruct (refresh_condition_window iat exp now) as (b & Hb & Hiff).
  rewrite Hb. destruct b; [|done]. exfalso.
  destruct (proj1 Hiff eq_refl) as [H1 H2].
  apply (Qlt_not_le _ _ (Qlt_le_trans _ _ _ H1 H2)).
  now rewrite <- Zle_Qle.
Qed.

(** Before the window opens, and not yet expired. *)
Lemma refresh_condition_fresh (iat exp : Z) (now : Q) :
  (now <= inject_Z (iat + 1200))%Q ->
  refresh_condition (JInt iat) (JInt exp) now = Ret false.
Proof.
  intros Hle.
  destruct (refresh_condition_window iat exp now) as (b & Hb & Hiff).
  rewrite Hb. destruct b; [|done]. exfalso.
  destruct (proj1 Hiff eq_refl) as [H1 _].
  exact (Qlt_not_le _ _ H1 Hle).
Qed.

Section OutsideTheWindow.

Variables (st : Settings) (w : World).
Variables (request : Request) (response : Response).
Variables (jwttoken : string) (c : gmap string jval).

Hypothesis has_cookie : cookies request !! "jwt" = Some jwttoken.

(** X5: a token whose [exp] is at most [iat + 1200] is never refreshed: at
    no time does the hook send a request for it. *)
Theorem short_lived_token_never_refreshed (iat exp : Z) :
  decode_cookie w jwttoken = Ret c ->
  c !! "iat" = Some (JInt iat) ->
  c !! "exp" = Some (JInt exp) ->
  exp <= iat + 1200 ->
  snd (process_response st w request response) = [].
Proof.
  intros Hd Hi He Hle.
  rewrite (process_response_sent st w request response jwttoken has_cookie).
  rewrite (try_block_no_refresh st w jwttoken response c _ _ Hd Hi He
             (refresh_condition_short_lived iat exp _ Hle)).
  now destruct (float_gt (time_time w) (JInt exp)).
Qed.

(** X6: a token that is neither due for refresh nor expired
    ([now <= iat + 1200] and [now <= exp]) changes nothing: the hook is the
    base class's hook on the response as given, and nothing is sent. *)
Theorem fresh_token_is_superclass_hook (iat exp : Z) :
  decode_cookie w jwttoken = Ret c ->
  c !! "iat" = Some (JInt iat) ->
  c !! "exp" = Some (JInt exp) ->
  (time_time w <= inject_Z (iat + 1200))%Q ->
  (time_time w <= inject_Z exp)%Q ->
  process_response st w request response
  = (Flask_process_response w response, []).
Proof.
  intros Hd Hi He H1 H2.
  pose proof (try_block_no_refresh st w jwttoken response c _ _ Hd Hi He
                (refresh_condition_fresh iat exp _ H1)) as Ht.
  assert (float_gt (time_time w) (JInt exp) = false) as Hgt.
  { unfold float_gt. apply negb_false_iff. now apply Qle_bool_iff. }
  rewrite Hgt in Ht.
  now rewrite (process_response_try st w request response jwttoken _ _
                 has_cookie Ht).
Qed.

(** X7: a cookie that does not decode is never sent to the refresh
    provider.  When the decoder raises one of the three JWT exceptions and
    the request has a referrer, the answer is the redirect to the login
    endpoint; when it raises anything else, that exception leaves the
    hook. *)
Theorem undecodable_cookie (e : exn) :
  decode_cookie w jwttoken = Raise e ->
  snd (process_response st w request response) = [] /\
  (caught e = true ->
   forall r : string, referrer request = Some r ->
     process_response st w request response
     = (Ret (redirect
          (REMOTE_JWT_EXPIRED_ENDPOINT st +:+ urllib_quote_plus w r)), [])) /\
  (caught e = false ->
   process_response st w request response = (Raise e, [])).
Proof.
  intros Hd.
  pose proof (try_block_decode_raises st w jwttoken response e Hd) as Ht.
  split; [|split].
  - rewrite (process_response_sent st w request response jwttoken
               has_cookie).
    now rewrite Ht.
  - intros Hc r Hr.
    now apply (caught_exception_redirects st w request response jwttoken e).
  - intros Hc.
    now apply (other_exception_escapes st w request response jwttoken e).
Qed.

(** X8: an [iat] claim that is a string makes [iat + 1200] raise
    [TypeError], which is not caught: the hook ends with it, whatever the
    other claims and the time are. *)
Theorem string_iat_escapes (s : string) (exp : jval) :
  decode_cookie w jwttoken = Ret c ->
  c !! "iat" = Some (JStr s) ->
  c !! "exp" = Some exp ->
  process_response st w request response = (Raise TypeError, []).
Proof.
  intros Hd Hi He.
  apply (other_exception_escapes st w request response jwttoken);
    [done| |done].
  now apply (try_block_condition_raises st w jwttoken response c
               (JStr s) exp).
Qed.

(** X9: what the [try] block hands on is the response as given, or that
    response with one more cookie: [jwt], [secure] and [httponly], whose
    value is the [jwt] entry of an answer the provider gave, with a status
    code below 300, to the one request sent.  Status, headers and the
    cookies already set are never changed. *)
Theorem try_block_response (response' : Response)
    (sent : list http_request) :
  try_block st w jwttoken response = (Ret response', sent) ->
  response' = response \/
  exists (claims : gmap string jval) (resp : reply)
         (d : gmap string string) (new_jwt : string),
    decode_cookie w jwttoken = Ret claims /\
    sent = [refresh_request st jwttoken claims] /\
    requests_post w (refresh_request st jwttoken claims) = Ret resp /\
    status_code resp < 300 /\
    reply_data resp = Some d /\
    d !! "jwt" = Some new_jwt /\
    response' = set_cookie response "jwt" new_jwt true true.
Proof.
  destruct (decode_cookie w jwttoken) as [claims|e] eqn:Hd.
  2:{ now rewrite (try_block_decode_raises st w jwttoken response e). }
  destruct (claims !! "iat") as [iat|] eqn:Hi.
  2:{ rewrite (try_block_missing_claim st w jwttoken response claims);
        auto. done. }
  destruct (claims !! "exp") as [exp|] eqn:He.
  2:{ rewrite (try_block_missing_claim st w jwttoken response claims);
        auto. done. }
  destruct (refresh_condition iat exp (time_time w)) as [[|]|e] eqn:Hr.
  - rewrite (try_block_refresh st w jwttoken response claims iat exp);
      auto.
    destruct (requests_post w (refresh_request st jwttoken claims))
      as [resp|e] eqn:Hp; cbn [mbind res_bind]; [|done].
    unfold on_reply.
    destruct (status_code resp <? 300) eqn:Hlt.
    + destruct (reply_data resp) as [d|] eqn:Hdata; [|done].
      destruct (d !! "jwt") as [new_jwt|] eqn:Hj.
      * intros [= <- <-]. right. exists claims, resp, d, new_jwt.
        apply Z.ltb_lt in Hlt. auto 10.
      * intros [= <- <-]. now left.
    + destruct (status_code resp =? 401); [done|].
      intros [= <- <-]. now left.
  - rewrite (try_block_no_refresh st w jwttoken response claims iat exp);
      auto.
    destruct (float_gt (time_time w) exp); [done|].
    intros [= <- <-]. now left.
  - now rewrite (try_block_condition_raises st w jwttoken response
                   claims iat exp e).
Qed.

End OutsideTheWindow.

(** * Inside the refresh window: the provider's answer *)

Section InsideTheWindow.

Variables (st : Settings) (w : World).
Variables (request : Request) (response : Response).
Variables (jwttoken : string) (c : gmap string jval) (iat exp : Z).

Hypothesis has_cookie : cookies request !! "jwt" = Some jwttoken.
Hypothesis decodes : decode_cookie w jwttoken = Ret c.
Hypothesis has_iat : c !! "iat" = Some (JInt iat).
Hypothesis has_exp : c !! "exp" = Some (JInt exp).
Hypothesis window_open : (inject_Z (iat + 1200) < time_time w)%Q.
Hypothesis not_expired : (time_time w <= inject_Z exp)%Q.

Local Abbreviation rq := (refresh_request st jwttoken c).

Lemma try_block_in_window :
  try_block st w jwttoken response
  = (resp ← requests_post w rq; on_reply response resp, [rq]).
Proof.
  apply (try_block_refresh st w jwttoken response c (JInt iat) (JInt exp));
    try done.
  now apply refresh_condition_true.
Qed.

(** X10: when the provider answers 401, the hook raises [JWTError] itself
    and, for a request with a referrer, answers with the redirect to the
    login endpoint; the refresh request has been sent. *)
Theorem refresh_denied_redirects (resp : reply) (r : string) :
  requests_post w rq = Ret resp ->
  status_code resp = 401 ->
  referrer request = Some r ->
  process_response st w request response
  = (Ret (redirect
       (REMOTE_JWT_EXPIRED_ENDPOINT st +:+ urllib_quote_plus w r)), [rq]).
Proof.
  intros Hp Hs Hr.
  apply (caught_exception_redirects st w request response jwttoken JWTError);
    try done.
  rewrite try_block_in_window, Hp. cbn [mbind res_bind].
  unfold on_reply. now rewrite Hs.
Qed.

(** X11: any other answer with a status code of 300 or more is ignored:
    no cookie is set, no exception is raised, and the response goes to the
    base class as it was given. *)
Theorem refresh_failure_is_ignored (resp : reply) :
  requests_post w rq = Ret resp ->
  300 <= status_code resp ->
  status_code resp <> 401 ->
  process_response st w request response
  = (Flask_process_response w response, [rq]).
Proof.
  intros Hp Hs Hn.
  rewrite (process_response_try st w request response jwttoken
             (Ret response) [rq] has_cookie); [done|].
  rewrite try_block_in_window, Hp. cbn [mbind res_bind].
  unfold on_reply.
  assert ((status_code resp <? 300) = false) as -> by (apply Z.ltb_ge; lia).
  now assert ((status_code resp =? 401) = false) as ->
    by (now apply Z.eqb_neq).
Qed.

(** X13: when [requests.post] itself raises an exception that is not one
    of the three JWT classes (the provider cannot be reached, say), the
    hook does not handle it: the exception leaves [process_response]. *)
Theorem provider_exception_escapes (e : exn) :
  requests_post w rq = Raise e ->
  caught e = false ->
  process_response st w request response = (Raise e, [rq]).
Proof.
  intros Hp Hc.
  apply (other_exception_escapes st w request response jwttoken e);
    try done.
  now rewrite try_block_in_window, Hp.
Qed.

End InsideTheWindow.

(** * Which decoder reads the cookie *)

Section Decoders.

Variables (st : Settings) (w : World).
Variables (request : Request) (response : Response).

Lemma process_response_same_decoding (w' : World) :
  (forall jwttoken, decode_cookie w' jwttoken = decode_cookie w jwttoken) ->
  time_time w' = time_time w ->
  requests_post w' = requests_post w ->
  urllib_quote_plus w' = urllib_quote_plus w ->
  Flask_process_response w' = Flask_process_response w ->
  process_response st w' request response
  = process_response st w request response.
Proof.
  intros Hd Ht Hp Hq Hf. unfold process_response, try_block, post, quote_plus.
  rewrite Ht, Hp, Hq, Hf.
  destruct (cookies request !! "jwt") as [jwttoken|]; [|done].
  now rewrite Hd.
Qed.

(** X14: with a public key configured (a non-empty string), the claims
    always come from the verifying [jwt.decode]: replacing
    [jwt.get_unverified_claims] by any other function changes nothing in
    what the hook does. *)
Theorem configured_key_verifies (key : string)
    (f : string -> res (gmap string jval)) :
  get_jwt_public_key w = Ret key ->
  key <> "" ->
  process_response st (with_unverified_claims w f) request response
  = process_response st w request response.
Proof.
  intros Hk Hne. apply process_response_same_decoding; try done.
  intros jwttoken. unfold decode_cookie. cbn. rewrite Hk. cbn.
  now destruct (decide (key = "")).
Qed.

(** X15: with the empty public key the signature is never checked:
    replacing [jwt.decode] by any other function changes nothing in what
    the hook does, and the claims are what [jwt.get_unverified_claims]
    returns. *)
Theorem empty_key_skips_verification
    (g : string -> string -> res (gmap string jval)) :
  get_jwt_public_key w = Ret "" ->
  (forall jwttoken,
     decode_cookie w jwttoken = jwt_get_unverified_claims w jwttoken) /\
  process_response st (with_decode w g) request response
  = process_response st w request response.
Proof.
  intros Hk. split.
  - intros jwttoken. unfold decode_cookie. now rewrite Hk.
  - apply process_response_same_decoding; try done.
    intros jwttoken. unfold decode_cookie. cbn. now rewrite Hk.
Qed.

End Decoders.

(** * Properties of create_app: the configuration *)


(** * Properties of setup_logging *)

Section SetupLogging.

Import Logging.

Variables (checkLevel : string -> res Z) (ls : LogSettings).

Lemma setLevel_handlers (name level : string) (s : state) :
  root_handlers (snd (setLevel checkLevel name level s)) = root_handlers s.
Proof. unfold setLevel. now destruct (checkLevel level). Qed.

(** One call adds the handler built from the settings to the root logger,
    whether or not a later [setLevel] raises. *)
Lemma setup_logging_handlers (s : state) :
  root_handlers (snd (setup_logging checkLevel ls s))
  = (root_handlers s ++ [handler_of ls])%list.
Proof.
  unfold setup_logging, mbind, LogM_bind, addHandler, handler_of.
  cbn [fst snd].
  repeat match goal with
  | |- context [setLevel checkLevel ?n ?l ?s0] =>
      let H := fresh "H" in
      pose proof (setLevel_handlers n l s0) as H;
      destruct (setLevel checkLevel n l s0) as [[[]|?] ?];
      cbn [fst snd] in H |- *; try exact H
  | |- context [decide ?P] => destruct (decide P)
  end;
  cbn [mret LogM_ret snd root_handlers] in *; congruence.
Qed.

(** X17: [setup_logging] is not idempotent on the handlers: each call
    appends one more handler to the root logger, so after [n] calls there
    are [n] copies of it behind the handlers that were there before, even
    when the calls end with an exception. *)
Theorem setup_logging_accumulates_handlers (n : nat) (s : state) :
  root_handlers
    (Nat.iter n (fun s' => snd (setup_logging checkLevel ls s')) s)
  = (root_handlers s ++ replicate n (handler_of ls))%list.
Proof.
  induction n as [|n IH].
  - cbn. now rewrite app_nil_r.
  - rewrite Nat.iter_succ, setup_logging_handlers, IH.
    rewrite <- app_assoc. f_equal.
    change [handler_of ls] with (replicate 1 (handler_of ls)).
    rewrite <- replicate_add. now rewrite Nat.add_1_r.
Qed.

(** X18: a level name that the library rejects makes the call raise after
    the handler has been added and before any level is changed. *)
Theorem setup_logging_unknown_level (e : exn) (s : state) :
  checkLevel (LOG_LEVEL ls) = Raise e ->
  setup_logging checkLevel ls s
  = (Raise e, {| root_handlers := (root_handlers s ++ [handler_of ls])%list;
                 level_of := level_of s |}).
Proof.
  intros H. unfold setup_logging, mbind, LogM_bind, addHandler, setLevel.
  now rewrite H.
Qed.

(** The state after a call that went through, for a level other than
    [DEBUG]. *)
Lemma setup_logging_not_debug (l e : Z) (s : state) :
  checkLevel (LOG_LEVEL ls) = Ret l ->
  checkLevel "ERROR" = Ret e ->
  LOG_LEVEL ls <> "DEBUG" ->
  setup_logging checkLevel ls s
  = (Ret tt,
     {| root_handlers := (root_handlers s ++ [handler_of ls])%list;
        level_of := <["apiclient" := e]> (<["snowflake.connector" := e]>
                      (<["requests.packages.urllib3" := e]>
                         (<["passlib" := e]> (<["" := l]> (level_of s))))) |}).
Proof.
  intros Hl He Hn.
  unfold setup_logging, mbind, LogM_bind, addHandler, setLevel.
  rewrite Hl. destruct (decide (LOG_LEVEL ls <> "DEBUG")); [|done].
  now rewrite He.
Qed.

Lemma setup_logging_lookup (l e : Z) (s : state) (name : string) :
  checkLevel (LOG_LEVEL ls) = Ret l ->
  checkLevel "ERROR" = Ret e ->
  LOG_LEVEL ls <> "DEBUG" ->
  level_of (snd (setup_logging checkLevel ls s)) !! name
  = if decide (name ∈ noisy) then Some e
    else if decide (name = "") then Some l
    else level_of s !! name.
Proof.
  intros Hl He Hn. rewrite (setup_logging_not_debug l e s Hl He Hn).
  cbn [snd level_of]. unfold noisy.
  destruct (decide (name = "apiclient")) as [->|H1].
  { rewrite lookup_insert_eq, decide_True; [done|].
    rewrite !elem_of_cons. tauto. }
  rewrite lookup_insert_ne by done.
  destruct (decide (name = "snowflake.connector")) as [->|H2].
  { rewrite lookup_insert_eq, decide_True; [done|].
    rewrite !elem_of_cons. tauto. }
  rewrite lookup_insert_ne by done.
  destruct (decide (name = "requests.packages.urllib3")) as [->|H3].
  { rewrite lookup_insert_eq, decide_True; [done|].
    rewrite !elem_of_cons. tauto. }
  rewrite lookup_insert_ne by done.
  destruct (decide (name = "passlib")) as [->|H4].
  { rewrite lookup_insert_eq, decide_True; [done|].
    rewrite !elem_of_cons. tauto. }
  rewrite lookup_insert_ne by done.
  rewrite decide_False.
  2:{ rewrite !elem_of_cons, elem_of_nil. tauto. }
  destruct (decide (name = "")) as [->|H5].
  - now rewrite lookup_insert_eq.
  - now rewrite lookup_insert_ne.
Qed.

(** X19: for a level other than [DEBUG] that the library knows, the call
    succeeds; afterwards the root logger has that level, the four noisy
    loggers have the level [ERROR], and every other logger has the level
    it had before. *)
Theorem setup_logging_levels (l e : Z) (s : state) (name : string) :
  checkLevel (LOG_LEVEL ls) = Ret l ->
  checkLevel "ERROR" = Ret e ->
  LOG_LEVEL ls <> "DEBUG" ->
  fst (setup_logging checkLevel ls s) = Ret tt /\
  level_of (snd (setup_logging checkLevel ls s)) !! name
  = if decide (name ∈ noisy) then Some e
    else if decide (name = "") then Some l
    else level_of s !! name.
Proof.
  intros Hl He Hn. split.
  - now rewrite (setup_logging_not_debug l e s Hl He Hn).
  - now apply setup_logging_lookup.
Qed.

(** X20: with the level [DEBUG] only the root logger is touched: every
    other logger, the four noisy ones included, keeps its level. *)
Theorem setup_logging_debug (l : Z) (s : state) (name : string) :
  LOG_LEVEL ls = "DEBUG" ->
  checkLevel "DEBUG" = Ret l ->
  fst (setup_logging checkLevel ls s) = Ret tt /\
  level_of (snd (setup_logging checkLevel ls s)) !! "" = Some l /\
  (name <> "" ->
   level_of (snd (setup_logging checkLevel ls s)) !! name
   = level_of s !! name).
Proof.
  intros Hd Hl.
  unfold setup_logging, mbind, LogM_bind, addHandler, setLevel.
  rewrite Hd, Hl. destruct (decide ("DEBUG" <> "DEBUG")); [done|].
  cbn. split; [done|]. split.
  - now rewrite lookup_insert_eq.
  - intros Hn. now rewrite lookup_insert_ne.
Qed.

(** X21: on the levels the call is idempotent: a second successful call
    with the same settings leaves every level as the first one set it. *)
Theorem setup_logging_levels_idempotent (l e : Z) (s : state) :
  checkLevel (LOG_LEVEL ls) = Ret l ->
  checkLevel "ERROR" = Ret e ->
  LOG_LEVEL ls <> "DEBUG" ->
  level_of (snd (setup_logging checkLevel ls
                   (snd (setup_logging checkLevel ls s))))
  = level_of (snd (setup_logging checkLevel ls s)).
Proof.
  intros Hl He Hn. apply map_eq. intros name.
  rewrite (setup_logging_lookup l e _ name Hl He Hn).
  rewrite (setup_logging_lookup l e s name Hl He Hn).
  now repeat case_decide.
Qed.

End SetupLogging.

(** * The properties above at sample inputs *)

(** X5 at a token issued at 0 that expires at 600, seen at 300. *)
Lemma short_lived_token_never_refreshed_witness :
  snd (process_response (Sample.settings "" true)
         (Sample.world (Sample.claims 0 600) 300 Sample.no_answer)
         (Sample.request None) Sample.response) = [].
Proof.
  refine (short_lived_token_never_refreshed (Sample.settings "" true)
            (Sample.world (Sample.claims 0 600) 300 Sample.no_answer)
            (Sample.request None) Sample.response "tok"
            (Sample.claims 0 600) _ 0 600 _ _ _ _); try reflexivity.
  lia.
Defined.

(** X6 at a token issued at 4000 and valid until 10000, seen at 5000. *)
Lemma fresh_token_is_superclass_hook_witness :
  process_response (Sample.settings "" true)
    (Sample.world (Sample.claims 4000 10000) 5000 Sample.no_answer)
    (Sample.request None) Sample.response
  = (Ret Sample.response, []).
Proof.
  refine (fresh_token_is_superclass_hook (Sample.settings "" true)
            (Sample.world (Sample.claims 4000 10000) 5000 Sample.no_answer)
            (Sample.request None) Sample.response "tok"
            (Sample.claims 4000 10000) _ 4000 10000 _ _ _ _ _);
    try reflexivity; vm_compute; discriminate.
Defined.

(** X7 with a public key and a decoder that rejects the token. *)
Lemma undecodable_cookie_witness :
  process_response (Sample.settings "" true) (MoreSamples.keyed_world "key")
    (Sample.request (Some "http://localhost/queries")) Sample.response
  = (Ret (redirect
       "https://sso.example.org/login?next=http%3A%2F%2Flocalhost%2Fqueries"),
     []).
Proof.
  refine (proj1 (proj2 (undecodable_cookie (Sample.settings "" true)
            (MoreSamples.keyed_world "key")
            (Sample.request (Some "http://localhost/queries"))
            Sample.response "tok" _ JWTError _)) _
            "http://localhost/queries" _); reflexivity.
Defined.

(** X8 at claims whose [iat] is the string ["yesterday"]. *)
Lemma string_iat_escapes_witness :
  process_response (Sample.settings "" true)
    (Sample.world {[ "iat" := JStr "yesterday"; "exp" := JInt 10 ]} 100
       Sample.no_answer)
    (Sample.request (Some "http://localhost/queries")) Sample.response
  = (Raise TypeError, []).
Proof.
  refine (string_iat_escapes (Sample.settings "" true)
            (Sample.world {[ "iat" := JStr "yesterday"; "exp" := JInt 10 ]}
               100 Sample.no_answer)
            (Sample.request (Some "http://localhost/queries"))
            Sample.response "tok"
            {[ "iat" := JStr "yesterday"; "exp" := JInt 10 ]} _
            "yesterday" (JInt 10) _ _ _); reflexivity.
Defined.

(** X9 at a refresh that succeeds. *)
Lemma try_block_response_witness :
  set_cookie Sample.response "jwt" "new" true true = Sample.response \/
  exists (claims : gmap string jval) (resp : reply)
         (d : gmap string string) (new_jwt : string),
    decode_cookie Sample.refresh_world "tok" = Ret claims /\
    [refresh_request (Sample.settings "" true) "tok" (Sample.claims 0 10000)]
    = [refresh_request (Sample.settings "" true) "tok" claims] /\
    requests_post Sample.refresh_world
      (refresh_request (Sample.settings "" true) "tok" claims) = Ret resp /\
    status_code resp < 300 /\
    reply_data resp = Some d /\
    d !! "jwt" = Some new_jwt /\
    set_cookie Sample.response "jwt" "new" true true
    = set_cookie Sample.response "jwt" new_jwt true true.
Proof.
  refine (try_block_response (Sample.settings "" true) Sample.refresh_world
            Sample.response "tok"
            (set_cookie Sample.response "jwt" "new" true true)
            [refresh_request (Sample.settings "" true) "tok"
               (Sample.claims 0 10000)] _).
  reflexivity.
Defined.

(** X10 at a provider that answers 401. *)
Lemma refresh_denied_redirects_witness :
  process_response (Sample.settings "" true)
    (Sample.world (Sample.claims 0 10000) 5000
       (Ret {| status_code := 401; reply_data := None |}))
    (Sample.request (Some "http://localhost/queries")) Sample.response
  = (Ret (redirect
       "https://sso.example.org/login?next=http%3A%2F%2Flocalhost%2Fqueries"),
     [refresh_request (Sample.settings "" true) "tok"
        (Sample.claims 0 10000)]).
Proof.
  refine (refresh_denied_redirects (Sample.settings "" true)
            (Sample.world (Sample.claims 0 10000) 5000
               (Ret {| status_code := 401; reply_data := None |}))
            (Sample.request (Some "http://localhost/queries"))
            Sample.response "tok" (Sample.claims 0 10000) 0 10000
            _ _ _ _ _ _ {| status_code := 401; reply_data := None |}
            "http://localhost/queries" _ _ _);
    try reflexivity; vm_compute; discriminate.
Defined.

(** X11 at a provider that answers 503. *)
Lemma refresh_failure_is_ignored_witness :
  process_response (Sample.settings "" true)
    (Sample.world (Sample.claims 0 10000) 5000
       (Ret {| status_code := 503; reply_data := None |}))
    (Sample.request None) Sample.response
  = (Ret Sample.response,
     [refresh_request (Sample.settings "" true) "tok"
        (Sample.claims 0 10000)]).
Proof.
  refine (refresh_failure_is_ignored (Sample.settings "" true)
            (Sample.world (Sample.claims 0 10000) 5000
               (Ret {| status_code := 503; reply_data := None |}))
            (Sample.request None)
            Sample.response "tok" (Sample.claims 0 10000) 0 10000
            _ _ _ _ _ _ {| status_code := 503; reply_data := None |}
            _ _ _);
    try reflexivity; vm_compute; discriminate.
Defined.

(** X13 at a provider that cannot be reached. *)
Lemma provider_exception_escapes_witness :
  process_response (Sample.settings "" true)
    (Sample.world (Sample.claims 0 10000) 5000 Sample.no_answer)
    (Sample.request (Some "http://localhost/queries")) Sample.response
  = (Raise (OtherError "ConnectionError"),
     [refresh_request (Sample.settings "" true) "tok"
        (Sample.claims 0 10000)]).
Proof.
  refine (provider_exception_escapes (Sample.settings "" true)
            (Sample.world (Sample.claims 0 10000) 5000 Sample.no_answer)
            (Sample.request (Some "http://localhost/queries"))
            Sample.response "tok" (Sample.claims 0 10000) 0 10000
            _ _ _ _ _ _ (OtherError "ConnectionError") _ _);
    try reflexivity; vm_compute; discriminate.
Defined.

(** X14 with the key ["key"]: the decoder that would accept the token
    without looking at its signature is replaced by one that raises. *)
Lemma configured_key_verifies_witness :
  process_response (Sample.settings "" true)
    (with_unverified_claims (MoreSamples.keyed_world "key")
       (fun _ => Raise KeyError))
    (Sample.request None) Sample.response
  = process_response (Sample.settings "" true)
      (MoreSamples.keyed_world "key") (Sample.request None) Sample.response.
Proof.
  refine (configured_key_verifies (Sample.settings "" true)
            (MoreSamples.keyed_world "key") (Sample.request None)
            Sample.response "key" (fun _ => Raise KeyError) _ _).
  - reflexivity.
  - vm_compute. discriminate.
Defined.

(** X15 with the empty key: the decoder that rejects every token is
    replaced by one that accepts every token. *)
Lemma empty_key_skips_verification_witness :
  process_response (Sample.settings "" true)
    (with_decode (MoreSamples.keyed_world "")
       (fun _ _ => Ret (Sample.claims 0 10)))
    (Sample.request None) Sample.response
  = process_response (Sample.settings "" true)
      (MoreSamples.keyed_world "") (Sample.request None) Sample.response.
Proof.
  refine (proj2 (empty_key_skips_verification (Sample.settings "" true)
            (MoreSamples.keyed_world "") (Sample.request None)
            Sample.response (fun _ _ => Ret (Sample.claims 0 10)) _)).
  reflexivity.
Defined.

(** X18 at the level name ["debug"], which the library does not know. *)
Lemma setup_logging_unknown_level_witness :
  Logging.setup_logging MoreSamples.checkLevel
    (MoreSamples.log_settings "debug") MoreSamples.no_logging
  = (Raise (OtherError "ValueError"),
     {| Logging.root_handlers :=
          [Logging.handler_of (MoreSamples.log_settings "debug")];
        Logging.level_of := ∅ |}).
Proof.
  refine (setup_logging_unknown_level MoreSamples.checkLevel
            (MoreSamples.log_settings "debug") (OtherError "ValueError")
            MoreSamples.no_logging _).
  reflexivity.
Defined.

(** X19 at the level [INFO], for the logger [passlib]. *)
Lemma setup_logging_levels_witness :
  fst (Logging.setup_logging MoreSamples.checkLevel
         (MoreSamples.log_settings "INFO") MoreSamples.no_logging) = Ret tt /\
  Logging.level_of
    (snd (Logging.setup_logging MoreSamples.checkLevel
            (MoreSamples.log_settings "INFO") MoreSamples.no_logging))
    !! "passlib"
  = if decide ("passlib" ∈ Logging.noisy) then Some 40
    else if decide ("passlib" = "") then Some 20
    else Logging.level_of MoreSamples.no_logging !! "passlib".
Proof.
  refine (setup_logging_levels MoreSamples.checkLevel
            (MoreSamples.log_settings "INFO") 20 40 MoreSamples.no_logging
            "passlib" _ _ _).
  - reflexivity.
  - reflexivity.
  - vm_compute. discriminate.
Defined.

(** X20 at the level [DEBUG], with [passlib] silenced beforehand. *)
Lemma setup_logging_debug_witness :
  Logging.level_of
    (snd (Logging.setup_logging MoreSamples.checkLevel
            (MoreSamples.log_settings "DEBUG")
            {| Logging.root_handlers := [];
               Logging.level_of := {[ "passlib" := 40 ]} |}))
    !! "passlib"
  = Some 40.
Proof.
  refine (proj2 (proj2 (setup_logging_debug MoreSamples.checkLevel
            (MoreSamples.log_settings "DEBUG") 10
            {| Logging.root_handlers := [];
               Logging.level_of := {[ "passlib" := 40 ]} |}
            "passlib" _ _)) _).
  - reflexivity.
  - reflexivity.
  - vm_compute. discriminate.
Defined.

(** X21 at the level [INFO]. *)
Lemma setup_logging_levels_idempotent_witness :
  Logging.level_of
    (snd (Logging.setup_logging MoreSamples.checkLevel
            (MoreSamples.log_settings "INFO")
            (snd (Logging.setup_logging MoreSamples.checkLevel
                    (MoreSamples.log_settings "INFO")
                    MoreSamples.no_logging))))
  = Logging.level_of
      (snd (Logging.setup_logging MoreSamples.checkLevel
              (MoreSamples.log_settings "INFO") MoreSamples.no_logging)).
Proof.
  refine (setup_logging_levels_idempotent MoreSamples.checkLevel
            (MoreSamples.log_settings "INFO") 20 40
            MoreSamples.no_logging _ _ _).
  - reflexivity.
  - reflexivity.
  - vm_compute. discriminate.
Defined.

(** X22: for the scheme [redis+socket], a connection that is built is a
    unix-socket connection at the path of the URL, and its database is the
    integer 0 when the query has no [virtual_host], and otherwise the whole
    first [virtual_host] value, as a string of any length. *)
Theorem socket_connection_arguments (lib : Redis.UrlLib) (st : Settings)
    (r : Redis.StrictRedis) :
  let u := Redis.urlparse lib (REDIS_URL st) in
  Redis.scheme u = "redis+socket" ->
  Redis.create_redis_connection lib st = Ret r ->
  exists db : Redis.db_arg,
    r = Redis.UnixSocket (Redis.path u) db /\
    (Redis.parse_qs lib (Redis.query u) !! "virtual_host" = None /\
     db = Redis.DbInt 0
     \/
     exists (v : string) (vs : list string),
       Redis.parse_qs lib (Redis.query u) !! "virtual_host" = Some (v :: vs) /\
       db = Redis.DbStr v).
Proof.
  intros u Hs. unfold Redis.create_redis_connection. fold u.
  destruct (decide (Redis.scheme u = "redis+socket")) as [_|Hn]; [|done].
  destruct (Redis.parse_qs lib (Redis.query u) !! "virtual_host")
    as [[|v vs]|]; cbn; [done| |].
  - intros [= <-]. exists (Redis.DbStr v). split; [done|]. right.
    now exists v, vs.
  - intros [= <-]. exists (Redis.DbInt 0). split; [done|]. now left.
Qed.

(** X22 at [redis+socket:///tmp/redis.sock?virtual_host=3]. *)
Lemma socket_connection_arguments_witness :
  exists db : Redis.db_arg,
    Redis.UnixSocket "/tmp/redis.sock" (Redis.DbStr "3")
    = Redis.UnixSocket "/tmp/redis.sock" db /\
    (Sample.parse_qs "virtual_host=3" !! "virtual_host" = None /\
     db = Redis.DbInt 0
     \/
     exists (v : string) (vs : list string),
       Sample.parse_qs "virtual_host=3" !! "virtual_host" = Some (v :: vs) /\
       db = Redis.DbStr v).
Proof.
  refine (socket_connection_arguments Sample.urllib
            (Sample.settings "redis+socket:///tmp/redis.sock?virtual_host=3"
               true)
            (Redis.UnixSocket "/tmp/redis.sock" (Redis.DbStr "3")) _ _);
    reflexivity.
Defined.

(** X23: inside the refresh window, an answer with a status code below
    300 makes the hook read [resp.data]; when the reply object has no such
    attribute, [AttributeError] is raised, it is not caught, and the hook
    ends with it after the request has been sent. *)
Theorem refresh_reply_needs_data (st : Settings) (w : World)
    (request : Request) (response : Response) (jwttoken : string)
    (c : gmap string jval) (iat exp : Z) (resp : reply) :
  cookies request !! "jwt" = Some jwttoken ->
  decode_cookie w jwttoken = Ret c ->
  c !! "iat" = Some (JInt iat) ->
  c !! "exp" = Some (JInt exp) ->
  (inject_Z (iat + 1200) < time_time w)%Q ->
  (time_time w <= inject_Z exp)%Q ->
  requests_post w (refresh_request st jwttoken c) = Ret resp ->
  status_code resp < 300 ->
  reply_data resp = None ->
  caught AttributeError = false /\
  process_response st w request response
  = (Raise AttributeError, [refresh_request st jwttoken c]).
Proof.
  intros Hc Hd Hi He Hlo Hhi Hp Hs Hn. split; [done|].
  destruct resp as [code d]. cbn in Hs, Hn. subst d.
  now apply (refresh_reply_without_data st w request response jwttoken c
               iat exp code).
Qed.

(** X23 at a provider that answers 200 with an object without [data]. *)
Lemma refresh_reply_needs_data_witness :
  process_response (Sample.settings "" true)
    (Sample.world (Sample.claims 0 10000) 5000
       (Ret {| status_code := 200; reply_data := None |}))
    (Sample.request None) Sample.response
  = (Raise AttributeError,
     [refresh_request (Sample.settings "" true) "tok"
        (Sample.claims 0 10000)]).
Proof.
  refine (proj2 (refresh_reply_needs_data (Sample.settings "" true)
            (Sample.world (Sample.claims 0 10000) 5000
               (Ret {| status_code := 200; reply_data := None |}))
            (Sample.request None) Sample.response "tok"
            (Sample.claims 0 10000) 0 10000
            {| status_code := 200; reply_data := None |}
            _ _ _ _ _ _ _ _ _));
    try reflexivity; vm_compute; discriminate.
Defined.

